(** * Visual-regression pipeline of [app.py]: model and verified properties

    The development embeds the five functions of [app.py]
    ([save_code_to_file], [capture_screenshot_from_file], [pixel_match],
    [process_google_sheet], [download_image]) and the button handler of the
    Streamlit shell as functions over an explicit program state, in a small
    state-and-exception monad. The state holds the [DataFrame] the loop
    fills, the files of the staging directory, the number of live browsers
    and the trace of what was done.

    What lies outside the file is taken as follows.
    - The environment (HTTP servers, the Chrome session, the spreadsheet
      service, the Excel writer) is a record [World] of responses; every
      function is parametric in it. A request is answered by what it asks
      for: the same URL gets the same response throughout a run.
    - OpenCV and scikit-image are an interface [ImageLib] with a contract
      [ImageLibOk] stating what the program relies on: [cv2.resize]
      returns the requested size and copies an image that has it already,
      [cv2.cvtColor] keeps the shape, [structural_similarity] raises
      [ValueError] when a side is shorter than its 7-pixel window, returns
      a value between -1 and 1 otherwise, and 1 on equal inputs.
      [exact_lib] is one implementation that meets the contract; its
      similarity is the windowed index computed in exact rational
      arithmetic.
    - binary64 numbers are modelled by rationals; [round2] is rounding to
      two decimals, ties to even.
    - strings are sequences of bytes, and [strip] removes the whitespace of
      the ASCII range.
    - writes to the local staging directory succeed. *)

From Stdlib Require Import ZArith QArith Qround Qabs Lqa Lia List String Ascii.
From Stdlib Require Import Decimal DecimalString DecimalNat.
From stdpp Require Import base option list gmap strings.

(** ** Exceptions and results *)

Inductive exn :=
| AttributeError        (* [.strip()] on a cell that is not a string *)
| ValueError            (* raised by [structural_similarity] *)
| WebDriverException    (* raised by selenium *)
| APIError              (* raised by [worksheet.update] or while opening the sheet *)
| RequestError          (* raised by [requests.get] *)
| OSError.              (* raised by [df.to_excel] *)

Inductive result (A : Type) :=
| Ret (a : A)
| Raise (e : exn).
Arguments Ret {A} a.
Arguments Raise {A} e.

(** ** Numbers: [round(x, 2)] *)

(** Round to the nearest integer, ties to the even one. *)
Definition rint (q : Q) : Z :=
  let f := Qfloor q in
  let r := (q - inject_Z f)%Q in
  match (r ?= 1 # 2)%Q with
  | Lt => f
  | Gt => (f + 1)%Z
  | Eq => if Z.even f then f else (f + 1)%Z
  end.

Definition round2 (q : Q) : Q := Qred (rint (q * 100) # 100).

(** ** Strings: [str.strip()] and [f"{index}"] *)

Definition is_space (c : ascii) : bool :=
  let n := nat_of_ascii c in
  ((9 <=? n)%nat && (n <=? 13)%nat) || ((28 <=? n)%nat && (n <=? 32)%nat).

Fixpoint lstrip (s : string) : string :=
  match s with
  | EmptyString => EmptyString
  | String c r => if is_space c then lstrip r else s
  end.

Fixpoint rstrip (s : string) : string :=
  match s with
  | EmptyString => EmptyString
  | String c r =>
      match rstrip r with
      | EmptyString => if is_space c then EmptyString else String c EmptyString
      | r' => String c r'
      end
  end.

Definition strip (s : string) : string := rstrip (lstrip s).

Definition str_of_index (index : nat) : string :=
  NilZero.string_of_uint (Nat.to_uint index).

(** ** The table: cells, rows, [DataFrame] *)

(** What [get_all_records] puts in a cell: text, a number (numeric-looking
    cells are converted), or [None] for a column added by the program. *)
Inductive cell :=
| CStr (s : string)
| CNum (q : Q)
| CNone.

Record DataFrame := {
  columns : list string;
  rows : list (gmap string cell)
}.

Definition desktop_col : string := "Desktop Match %".
Definition mobile_col : string := "Mobile Match %".

(** [row.get(key, '')] *)
Definition row_get (row : gmap string cell) (key : string) : cell :=
  default (CStr EmptyString) (row !! key).

(** [x.strip()] for the value of a cell *)
Definition cell_strip (c : cell) : result string :=
  match c with
  | CStr s => Ret (strip s)
  | _ => Raise AttributeError
  end.

(** [if col not in df.columns: df[col] = None] *)
Definition ensure_column (col : string) (df : DataFrame) : DataFrame :=
  if bool_decide (col ∈ columns df) then df
  else {| columns := columns df ++ [col];
          rows := (λ r, <[col := CNone]> r) <$> rows df |}.

(** [df.at[index, col] = v]. The loop only calls it with the index of a row
    of the table; elsewhere [alter] leaves the rows as they are. *)
Definition df_at_set (index : nat) (col : string) (v : cell) (df : DataFrame)
  : DataFrame :=
  {| columns := columns df;
     rows := alter (λ r, <[col := v]> r) index (rows df) |}.

(** [df.iterrows()] *)
Definition iterrows (df : DataFrame) : list (nat * gmap string cell) :=
  imap (λ i r, (i, r)) (rows df).

(** [df.values.tolist()] *)
Definition values_tolist (df : DataFrame) : list (list cell) :=
  (λ r, (λ c, default CNone (r !! c)) <$> columns df) <$> rows df.

(** [[df.columns.values.tolist()] + df.values.tolist()] *)
Definition sheet_payload (df : DataFrame) : list (list cell) :=
  (CStr <$> columns df) :: values_tolist df.

(** ** Images *)

Definition pixel : Type := Z * Z * Z.          (* B, G, R *)
Definition image : Type := list (list pixel).  (* rows of pixels *)
Definition gray : Type := list (list Z).

(** [m.shape[0]] and [m.shape[1]] *)
Definition img_rows {A} (m : list (list A)) : nat := length m.
Definition img_cols {A} (m : list (list A)) : nat :=
  match m with
  | [] => 0
  | r :: _ => length r
  end.

(** [m] is an [h] by [w] grid. *)
Definition grid {A} (m : list (list A)) (h w : nat) : Prop :=
  length m = h ∧ Forall (λ r, length r = w) m.

Definition is_byte (v : Z) : bool := (0 <=? v)%Z && (v <? 256)%Z.

(** A file decodes to an image when it holds a non-empty rectangular grid
    of 8-bit BGR pixels. *)
Definition decodes (m : image) : bool :=
  (0 <? img_rows m)%nat && (0 <? img_cols m)%nat
  && forallb (λ r, (length r =? img_cols m)%nat) m
  && forallb (forallb (λ p, match p with
                            | (b, g, r) => is_byte b && is_byte g && is_byte r
                            end)) m.

Inductive file :=
| FImage (m : image)
| FData (s : string).

(** *** The image libraries *)

Class ImageLib := {
  (** [cv2.resize(m, (w, h))] *)
  cv_resize : image → nat → nat → image;
  (** [cv2.cvtColor(m, cv2.COLOR_BGR2GRAY)] *)
  cv_cvtColor : image → gray;
  (** [structural_similarity(a, b, full=True)[0]] *)
  sk_ssim : gray → gray → result Q
}.

(** What the program relies on. The window of [structural_similarity] is 7
    pixels wide; an image with a shorter side makes it raise. *)
Record ImageLibOk (L : ImageLib) : Prop := {
  resize_grid : ∀ m w h, (0 < h)%nat → (0 < w)%nat → grid (cv_resize m w h) h w;
  resize_same : ∀ m h w, grid m h w → cv_resize m w h = m;
  cvtColor_grid : ∀ m h w, grid m h w → grid (cv_cvtColor m) h w;
  ssim_small : ∀ a b h w, grid a h w → grid b h w →
    (h < 7 ∨ w < 7)%nat → sk_ssim a b = Raise ValueError;
  ssim_range : ∀ a b h w, grid a h w → grid b h w →
    (7 ≤ h)%nat → (7 ≤ w)%nat →
    ∃ v, sk_ssim a b = Ret v ∧ (-1 <= v)%Q ∧ (v <= 1)%Q;
  ssim_refl : ∀ a h w, grid a h w → (7 ≤ h)%nat → (7 ≤ w)%nat →
    sk_ssim a a = Ret 1%Q
}.

(** *** An implementation of the libraries in exact arithmetic *)

Global Instance grid_dec {A} (m : list (list A)) (h w : nat) : Decision (grid m h w).
Proof. unfold grid. apply _. Defined.

(** [n] samples of [l], the [i]-th taken at position [i * length l / n]. *)
Definition sample {A} (d : A) (l : list A) (n : nat) : list A :=
  (λ i, nth (i * length l / n) l d) <$> seq 0 n.

(** Resizing copies an image that already has the requested size and
    samples the source otherwise. *)
Definition nearest_resize (m : image) (w h : nat) : image :=
  if bool_decide (grid m h w) then m
  else (λ r, sample (0, 0, 0)%Z r w) <$> sample [] m h.

(** The 8-bit fixed-point luminance of OpenCV. *)
Definition bgr2gray (p : pixel) : Z :=
  match p with
  | (b, g, r) => Z.shiftr (1868 * b + 9617 * g + 4899 * r + 8192) 14
  end.

Definition gray_of_image (m : image) : gray := map (map bgr2gray) m.

Definition win_size : nat := 7.
Definition NP : Q := 49%Q.                         (* win_size ** ndim *)
Definition cov_norm : Q := (NP / (NP - 1))%Q.      (* sample covariance *)
Definition C1 : Q := ((1 # 100) * 255 * ((1 # 100) * 255))%Q.   (* (K1 * data_range) ** 2 *)
Definition C2 : Q := ((3 # 100) * 255 * ((3 # 100) * 255))%Q.   (* (K2 * data_range) ** 2 *)

Definition zsum (l : list Z) : Z := foldr Z.add 0%Z l.
Definition qsum (l : list Q) : Q := foldr Qplus 0%Q l.

(** The 7 by 7 window whose top-left corner is at row [i], column [j]. *)
Definition patch (g : gray) (i j : nat) : list Z :=
  concat ((λ r, take win_size (drop j r)) <$> take win_size (drop i g)).

(** [uniform_filter] at one window: the mean of its 49 values. *)
Definition uniform_mean (l : list Z) : Q := (inject_Z (zsum l) / NP)%Q.

(** The similarity of one window, as [structural_similarity] computes it. *)
Definition ssim_window (x y : list Z) : Q :=
  let ux := uniform_mean x in
  let uy := uniform_mean y in
  let uxx := uniform_mean (zip_with Z.mul x x) in
  let uyy := uniform_mean (zip_with Z.mul y y) in
  let uxy := uniform_mean (zip_with Z.mul x y) in
  let vx := (cov_norm * (uxx - ux * ux))%Q in
  let vy := (cov_norm * (uyy - uy * uy))%Q in
  let vxy := (cov_norm * (uxy - ux * uy))%Q in
  let A1 := (2 * ux * uy + C1)%Q in
  let A2 := (2 * vxy + C2)%Q in
  let B1 := (ux * ux + uy * uy + C1)%Q in
  let B2 := (vx + vy + C2)%Q in
  ((A1 * A2) / (B1 * B2))%Q.

(** The similarity map cropped to the windows that lie inside the image. *)
Definition ssim_map (a b : gray) : list Q :=
  flat_map (λ i, map (λ j, ssim_window (patch a i j) (patch b i j))
                     (seq 0 (img_cols a - 6)))
           (seq 0 (img_rows a - 6)).

Definition ssim_exact (a b : gray) : result Q :=
  if negb (bool_decide (grid b (img_rows a) (img_cols a))) then Raise ValueError
  else if (img_rows a <? win_size)%nat || (img_cols a <? win_size)%nat
  then Raise ValueError
  else Ret (Qred (qsum (ssim_map a b)
                  / inject_Z (Z.of_nat (length (ssim_map a b))))%Q).

Definition exact_lib : ImageLib := {|
  cv_resize := nearest_resize;
  cv_cvtColor := gray_of_image;
  sk_ssim := ssim_exact
|}.

(** ** The environment *)

Record Viewport := { vp_width : nat; vp_height : nat }.

Inductive http_response :=
| Response (status_code : nat) (content : file)
| RequestException.

(** How a Chrome session goes: the first call of
    [capture_screenshot_from_file] that raises, or the measured
    [document.body.scrollHeight] and the picture taken. *)
Inductive session :=
| StartFails
| GetFails
| HideScrollbarFails
| MeasureFails
| ResizeFails (total_height : nat)
| ScreenshotFails (total_height : nat)
| Captured (total_height : nat) (shot : file).

Record World := {
  (** [client.open_by_url(sheet_url).get_worksheet(0).get_all_records()] *)
  open_sheet : string → string → result DataFrame;
  (** [requests.get(url, stream=True)] *)
  requests_get : string → http_response;
  (** the session started on a document with a window size *)
  chrome : string → Viewport → session;
  (** [worksheet.update(payload)] succeeds *)
  sheet_accepts : list (list cell) → bool;
  (** [df.to_excel(path, index=False)] succeeds *)
  excel_writable : string → bool
}.

(** ** Program state and its monad *)

Inductive message :=
| ScreenshotSaved (output_file : string)
| ErrorCapturing (e : exn)
| ErrorLoadReference (path : string)
| ErrorLoadTest (path : string)
| MatchPercentage (p : Q) (reference_path test_path : string)
| SkipMissingCode (index : nat)
| SkipMissingUrls (index : nat)
| SkipDesktopDownload (index : nat)
| SkipMobileDownload (index : nat)
| ErrorProcessingRow (index : nat) (e : exn)
| SheetUpdated
| ErrorUpdatingSheet (e : exn)
| ResultsSaved (path : string)
| ImageDownloaded (path : string)
| DownloadFailedStatus (url : string) (status_code : nat)
| ErrorDownloading (url : string) (e : exn).

Inductive event :=
| EWriteFile (path : string)
| EHttpGet (url : string)
| EChromeStart (window : Viewport)
| EDriverGet (html_file : string)
| ESleep (seconds : nat)
| EHideScrollbar
| EMeasureHeight
| ESetWindowSize (w h : nat)
| ESaveScreenshot (path : string)
| EQuit
| ESheetUpdate (payload : list (list cell))
| EToExcel (path : string) (table : list (list cell))
| EPrint (m : message).

Record State := {
  df : DataFrame;               (* the table being filled *)
  fs : gmap string file;        (* the local files *)
  live : nat;                   (* browsers started and not yet quit *)
  trace : list event            (* what the program did, oldest first *)
}.

Definition M (A : Type) : Type := State → result A * State.

Definition ret {A} (a : A) : M A := λ s, (Ret a, s).
Definition raise {A} (e : exn) : M A := λ s, (Raise e, s).
Definition bind {A B} (m : M A) (k : A → M B) : M B :=
  λ s, match m s with
       | (Ret a, s') => k a s'
       | (Raise e, s') => (Raise e, s')
       end.

Global Instance M_ret : MRet M := @ret.
Global Instance M_bind : MBind M := λ A B k m, bind m k.

(** [try: m except Exception as e: h e] *)
Definition try_except {A} (m : M A) (h : exn → M A) : M A :=
  λ s, match m s with
       | (Ret a, s') => (Ret a, s')
       | (Raise e, s') => h e s'
       end.

(** [try: m finally: f] *)
Definition try_finally {A} (m : M A) (f : M unit) : M A :=
  λ s, match m s with
       | (r, s') =>
           match f s' with
           | (Ret _, s'') => (r, s'')
           | (Raise e, s'') => (Raise e, s'')
           end
       end.

Definition lift {A} (r : result A) : M A := λ s, (r, s).

Definition emit (e : event) : M unit :=
  λ s, (Ret tt, {| df := df s; fs := fs s; live := live s;
                   trace := trace s ++ [e] |}).

Definition print (m : message) : M unit := emit (EPrint m).

Definition write_file (path : string) (content : file) : M unit :=
  λ s, (Ret tt, {| df := df s; fs := <[path := content]> (fs s);
                   live := live s; trace := trace s ++ [EWriteFile path] |}).

Definition get_df : M DataFrame := λ s, (Ret (df s), s).

Definition modify_df (f : DataFrame → DataFrame) : M unit :=
  λ s, (Ret tt, {| df := f (df s); fs := fs s; live := live s;
                   trace := trace s |}).

Definition set_live (n : nat) : M unit :=
  λ s, (Ret tt, {| df := df s; fs := fs s; live := n; trace := trace s |}).

Definition get_live : M nat := λ s, (Ret (live s), s).

(** The image a path holds: [None] for a missing file or one that does not
    decode. *)
Definition loaded (s : State) (path : string) : option image :=
  match fs s !! path with
  | Some (FImage m) => if decodes m then Some m else None
  | _ => None
  end.

(** [cv2.imread(path)] *)
Definition imread (path : string) : M (option image) :=
  λ s, (Ret (loaded s path), s).

(** [for x in l: body x] *)
Fixpoint for_each {A} (l : list A) (body : A → M unit) : M unit :=
  match l with
  | [] => ret tt
  | x :: l' => bind (body x) (λ _, for_each l' body)
  end.

(** ** The program *)

Section Program.

Context {L : ImageLib} (W : World).

Definition TEMP_DIR : string := "./temp_files".

(** [os.path.join(TEMP_DIR, name)] *)
Definition path_join (dir name : string) : string := dir +:+ "/" +:+ name.

Definition nl : string := String "010"%char EmptyString.
Definition dq : string := String "034"%char EmptyString.

(** The document written by [save_code_to_file]. *)
Definition html_document (html_code : string) (file_index : nat) : string :=
  nl +:+ "        <!DOCTYPE html>"
  +:+ nl +:+ "        <html lang=" +:+ dq +:+ "en" +:+ dq +:+ ">"
  +:+ nl +:+ "        <head>"
  +:+ nl +:+ "            <meta charset=" +:+ dq +:+ "UTF-8" +:+ dq +:+ ">"
  +:+ nl +:+ "            <meta name=" +:+ dq +:+ "viewport" +:+ dq +:+ " content="
        +:+ dq +:+ "width=device-width, initial-scale=1.0" +:+ dq +:+ ">"
  +:+ nl +:+ "            <title>Test Page</title>"
  +:+ nl +:+ "            <link rel=" +:+ dq +:+ "stylesheet" +:+ dq +:+ " href="
        +:+ dq +:+ "style_" +:+ str_of_index file_index +:+ ".css" +:+ dq +:+ ">"
  +:+ nl +:+ "        </head>"
  +:+ nl +:+ "        <body>"
  +:+ nl +:+ "        " +:+ html_code
  +:+ nl +:+ "        </body>"
  +:+ nl +:+ "        </html>"
  +:+ nl +:+ "        ".

Definition save_code_to_file (html_code css_code : string) (file_index : nat)
  : M (string * string) :=
  let html_path := path_join TEMP_DIR ("page_" +:+ str_of_index file_index +:+ ".html") in
  let css_path := path_join TEMP_DIR ("style_" +:+ str_of_index file_index +:+ ".css") in
  write_file html_path (FData (html_document html_code file_index)) ;;
  write_file css_path (FData css_code) ;;
  mret (html_path, css_path).

(** *** The browser *)

(** [webdriver.Chrome(...)] with [--window-size=width,height] *)
Definition chrome_start (html_file : string) (viewport_size : Viewport) : M session :=
  emit (EChromeStart viewport_size) ;;
  match chrome W html_file viewport_size with
  | StartFails => raise WebDriverException
  | driver => n ← get_live; set_live (S n) ;; mret driver
  end.

(** [driver.get(...)] *)
Definition driver_get (driver : session) (html_file : string) : M unit :=
  emit (EDriverGet html_file) ;;
  match driver with
  | StartFails | GetFails => raise WebDriverException
  | _ => mret tt
  end.

(** [driver.execute_script("document.body.style.overflow = 'hidden';")] *)
Definition hide_scrollbar (driver : session) : M unit :=
  emit EHideScrollbar ;;
  match driver with
  | StartFails | GetFails | HideScrollbarFails => raise WebDriverException
  | _ => mret tt
  end.

(** [driver.execute_script("return document.body.scrollHeight")] *)
Definition measure_height (driver : session) : M nat :=
  emit EMeasureHeight ;;
  match driver with
  | ResizeFails h | ScreenshotFails h | Captured h _ => mret h
  | _ => raise WebDriverException
  end.

(** [driver.set_window_size(w, h)] *)
Definition set_window_size (driver : session) (w h : nat) : M unit :=
  emit (ESetWindowSize w h) ;;
  match driver with
  | ScreenshotFails _ | Captured _ _ => mret tt
  | _ => raise WebDriverException
  end.

(** [driver.save_screenshot(output_file)] *)
Definition save_screenshot (driver : session) (output_file : string) : M unit :=
  emit (ESaveScreenshot output_file) ;;
  match driver with
  | Captured _ shot => write_file output_file shot
  | _ => raise WebDriverException
  end.

(** [driver.quit()] *)
Definition driver_quit : M unit :=
  emit EQuit ;; n ← get_live; set_live (pred n).

Definition capture_screenshot_from_file (html_file output_file : string)
  (viewport_size : Viewport) : M unit :=
  driver ← chrome_start html_file viewport_size;
  try_finally
    (try_except
       (driver_get driver html_file ;;
        emit (ESleep 2) ;;
        hide_scrollbar driver ;;
        total_height ← measure_height driver;
        set_window_size driver (vp_width viewport_size) total_height ;;
        save_screenshot driver output_file ;;
        print (ScreenshotSaved output_file))
       (λ e, print (ErrorCapturing e)))
    driver_quit.

(** *** The scorer *)

Definition pixel_match (reference_path test_path : string) : M Q :=
  ref_image ← imread reference_path;
  test_image ← imread test_path;
  match ref_image with
  | None => print (ErrorLoadReference reference_path) ;; mret 0%Q
  | Some ref_image =>
      match test_image with
      | None => print (ErrorLoadTest test_path) ;; mret 0%Q
      | Some test_image =>
          let test_image :=
            cv_resize test_image (img_cols ref_image) (img_rows ref_image) in
          let ref_gray := cv_cvtColor ref_image in
          let test_gray := cv_cvtColor test_image in
          similarity_index ← lift (sk_ssim ref_gray test_gray);
          let match_percentage := round2 (similarity_index * 100) in
          print (MatchPercentage match_percentage reference_path test_path) ;;
          mret match_percentage
      end
  end.

(** *** The fetcher *)

Definition download_image (url output_path : string) : M bool :=
  try_except
    (emit (EHttpGet url) ;;
     match requests_get W url with
     | RequestException => raise RequestError
     | Response status_code content =>
         if (status_code =? 200)%nat
         then write_file output_path content ;;
              print (ImageDownloaded output_path) ;;
              mret true
         else print (DownloadFailedStatus url status_code) ;;
              mret false
     end)
    (λ e, print (ErrorDownloading url e) ;; mret false).

(** *** The batch *)

Definition desktop_viewport : Viewport := {| vp_width := 1920; vp_height := 1080 |}.
Definition mobile_viewport : Viewport := {| vp_width := 420; vp_height := 812 |}.

(** [not s] for a string *)
Definition is_empty (s : string) : bool :=
  match s with
  | EmptyString => true
  | _ => false
  end.

Definition desktop_screenshot_path (index : nat) : string :=
  path_join TEMP_DIR ("desktop_" +:+ str_of_index index +:+ ".png").
Definition mobile_screenshot_path (index : nat) : string :=
  path_join TEMP_DIR ("mobile_" +:+ str_of_index index +:+ ".png").
Definition desktop_ref_path (index : nat) : string :=
  path_join TEMP_DIR ("desktop_ref_" +:+ str_of_index index +:+ ".png").
Definition mobile_ref_path (index : nat) : string :=
  path_join TEMP_DIR ("mobile_ref_" +:+ str_of_index index +:+ ".png").

(** The body of the loop over [df.iterrows()]; a [continue] ends it. *)
Definition process_row (index : nat) (row : gmap string cell) : M unit :=
  html_code ← lift (cell_strip (row_get row "HTML Code"));
  css_code ← lift (cell_strip (row_get row "CSS Code"));
  desktop_ref_image_url ← lift (cell_strip (row_get row "Desktop Reference Image"));
  mobile_ref_image_url ← lift (cell_strip (row_get row "Mobile Reference Image"));
  if is_empty html_code || is_empty css_code
  then print (SkipMissingCode index)
  else if is_empty desktop_ref_image_url || is_empty mobile_ref_image_url
  then print (SkipMissingUrls index)
  else
    '(html_file, css_file) ← save_code_to_file html_code css_code index;
    let desktop_screenshot := desktop_screenshot_path index in
    let mobile_screenshot := mobile_screenshot_path index in
    let desktop_ref_image_path := desktop_ref_path index in
    let mobile_ref_image_path := mobile_ref_path index in
    try_except
      (ok ← download_image desktop_ref_image_url desktop_ref_image_path;
       if negb ok then print (SkipDesktopDownload index)
       else
         ok ← download_image mobile_ref_image_url mobile_ref_image_path;
         if negb ok then print (SkipMobileDownload index)
         else
           capture_screenshot_from_file html_file desktop_screenshot desktop_viewport ;;
           capture_screenshot_from_file html_file mobile_screenshot mobile_viewport ;;
           desktop_match ← pixel_match desktop_ref_image_path desktop_screenshot;
           mobile_match ← pixel_match mobile_ref_image_path mobile_screenshot;
           modify_df (df_at_set index desktop_col (CNum desktop_match)) ;;
           modify_df (df_at_set index mobile_col (CNum mobile_match)))
      (λ e, print (ErrorProcessingRow index e)).

(** [worksheet.update([df.columns.values.tolist()] + df.values.tolist())] *)
Definition worksheet_update : M unit :=
  d ← get_df;
  emit (ESheetUpdate (sheet_payload d)) ;;
  if sheet_accepts W (sheet_payload d) then mret tt else raise APIError.

(** [df.to_excel(local_excel_path, index=False)] *)
Definition to_excel (local_excel_path : string) : M unit :=
  d ← get_df;
  emit (EToExcel local_excel_path (sheet_payload d)) ;;
  if excel_writable W local_excel_path then mret tt else raise OSError.

Definition process_google_sheet (sheet_url credentials_path local_excel_path : string)
  : M unit :=
  data ← lift (open_sheet W sheet_url credentials_path);
  modify_df (λ _, data) ;;
  modify_df (ensure_column desktop_col) ;;
  modify_df (ensure_column mobile_col) ;;
  d ← get_df;
  for_each (iterrows d) (λ '(index, row), process_row index row) ;;
  try_except
    (worksheet_update ;; print SheetUpdated)
    (λ e, print (ErrorUpdatingSheet e)) ;;
  to_excel local_excel_path ;;
  print (ResultsSaved local_excel_path).

(** *** The Streamlit shell *)

Inductive ui_message :=
| StErrorMissingInput
| StErrorOccurred (e : exn)
| StSuccess (local_excel_path : string).

Definition credentials_path : string :=
  "C:\Users\umama\Downloads\WebPer\stunning-flight-450012-t8-05694950ecd2.json".

(** What the page shows after [Process Sheet] is pressed. *)
Definition on_process_sheet (sheet_url local_excel_path : string)
  : State → ui_message * State :=
  λ s,
    if is_empty sheet_url || is_empty credentials_path
    then (StErrorMissingInput, s)
    else match process_google_sheet sheet_url credentials_path local_excel_path s with
         | (Ret _, s') => (StSuccess local_excel_path, s')
         | (Raise e, s') => (StErrorOccurred e, s')
         end.

End Program.

(** The state in which a run starts: no table yet, the files left in the
    staging directory, no browser, nothing done. *)
Definition start (files : gmap string file) : State :=
  {| df := {| columns := []; rows := [] |}; fs := files; live := 0; trace := [] |}.

(** ** Vocabulary of the statements *)

(** The state after more events, and after a file is written. *)
Definition add_events (evs : list event) (s : State) : State :=
  {| df := df s; fs := fs s; live := live s; trace := trace s ++ evs |}.

Definition add_file (path : string) (content : file) (s : State) : State :=
  {| df := df s; fs := <[path := content]> (fs s); live := live s;
     trace := trace s |}.

(** The scroll height a session reports, when it gets that far. *)
Definition measured (d : session) : option nat :=
  match d with
  | ResizeFails h | ScreenshotFails h | Captured h _ => Some h
  | _ => None
  end.


(** A percentage with two decimals between -100 and 100. *)
Definition is_score (q : Q) : Prop :=
  ∃ n : Z, (-10000 ≤ n ≤ 10000)%Z ∧ q = Qred (n # 100).

(** The row a message about a skipped or failed case names. *)
Definition failure_index (e : event) : option nat :=
  match e with
  | EPrint (SkipMissingCode i) | EPrint (SkipMissingUrls i)
  | EPrint (SkipDesktopDownload i) | EPrint (SkipMobileDownload i)
  | EPrint (ErrorProcessingRow i _) => Some i
  | _ => None
  end.

(** The window sizes of the browsers started, in order. *)
Definition starts (evs : list event) : list Viewport :=
  omap (λ e, match e with EChromeStart vp => Some vp | _ => None end) evs.


(** Calls that reach the network or the browser. *)
Definition is_remote (e : event) : bool :=
  match e with
  | EHttpGet _ | EChromeStart _ | EDriverGet _ | EHideScrollbar
  | EMeasureHeight | ESetWindowSize _ _ | ESaveScreenshot _ | EQuit => true
  | _ => false
  end.

(** Events of the write-back and of the export. *)
Definition is_sink (e : event) : bool :=
  match e with
  | ESheetUpdate _ | EToExcel _ _ => true
  | _ => false
  end.

(** What a row may add to the trace: nothing a sink does, no message about
    another row, no resize to a width other than the two profiles'. *)
Definition row_event (index : nat) (e : event) : Prop :=
  is_sink e = false
  ∧ (∀ j, failure_index e = Some j → j = index)
  ∧ (∀ w h, e = ESetWindowSize w h → w = 1920 ∨ w = 420)%nat.

(** [s'] is [s] after more events, the table and the browser count being
    the same. [flagged] tells whether a message about a skipped or failed
    row [index] is among the events; [sts] are the browsers started. *)
Definition progress (index : nat) (flagged : bool) (sts : list Viewport)
  (s s' : State) : Prop :=
  df s' = df s ∧ live s' = live s
  ∧ ∃ evs : list event, trace s' = trace s ++ evs
      ∧ Forall (row_event index) evs
      ∧ starts evs = sts
      ∧ if flagged then ∃ e, e ∈ evs ∧ failure_index e = Some index
        else Forall (λ e, failure_index e = None) evs.

Definition input_keys : list string :=
  ["HTML Code"; "CSS Code"; "Desktop Reference Image"; "Mobile Reference Image"].

Definition is_text (c : cell) : bool :=
  match c with
  | CStr _ => true
  | _ => false
  end.

(** The four input cells of a row hold text. *)
Definition text_row (row : gmap string cell) : bool :=
  forallb (λ key, is_text (row_get row key)) input_keys.

(** The state [s] with both match fields of row [index] written. *)
Definition record_scores (index : nat) (dm mm : Q) (s : State) : State :=
  {| df := df_at_set index mobile_col (CNum mm)
             (df_at_set index desktop_col (CNum dm) (df s));
     fs := fs s; live := live s; trace := trace s |}.

(** The three ways the body of the loop ends: a cell that is not text makes
    [.strip()] raise; the row is skipped or fails, with a message; both
    scores are written. *)
Inductive row_result {L : ImageLib} (index : nat) (row : gmap string cell)
  (s : State) : result unit → State → Prop :=
| RowAborted (key : string) :
    key ∈ input_keys →
    cell_strip (row_get row key) = Raise AttributeError →
    row_result index row s (Raise AttributeError) s
| RowPassed (sts : list Viewport) (s' : State) :
    progress index true sts s s' →
    sts = [] ∨ sts = [desktop_viewport]
    ∨ sts = [desktop_viewport; mobile_viewport] →
    row_result index row s (Ret tt) s'
| RowScored (s1 s2 s' : State) (dm mm : Q) :
    progress index false [desktop_viewport; mobile_viewport] s s' →
    fst (pixel_match (desktop_ref_path index) (desktop_screenshot_path index) s1)
    = Ret dm →
    fst (pixel_match (mobile_ref_path index) (mobile_screenshot_path index) s2)
    = Ret mm →
    row_result index row s (Ret tt) (record_scores index dm mm s').

(** The function the loop of [process_google_sheet] applies to the pairs of
    [df.iterrows()]. *)
Definition loop_body {L : ImageLib} (W : World) (x : nat * gmap string cell)
  : M unit :=
  let '(index, row) := x in process_row W index row.

Definition scored_row (dm mm : Q) (row : gmap string cell) : gmap string cell :=
  <[mobile_col := CNum mm]> (<[desktop_col := CNum dm]> row).

(** A message says that row [j] was skipped or failed. *)
Definition flagged (j : nat) (evs : list event) : Prop :=
  ∃ e, e ∈ evs ∧ failure_index e = Some j.

(** What holds between the states before and after the rows numbered
    [idxs] are processed. *)
Definition batch (idxs : list nat) (s s' : State) : Prop :=
  live s' = live s
  ∧ columns (df s') = columns (df s)
  ∧ ∃ evs : list event, trace s' = trace s ++ evs
      ∧ Forall (λ e, is_sink e = false) evs
      ∧ Forall (λ vp, vp = desktop_viewport ∨ vp = mobile_viewport) (starts evs)
      ∧ ∀ j, (j ∉ idxs → ¬ flagged j evs)
             ∧ (rows (df s') !! j = rows (df s) !! j
                ∨ (j ∈ idxs ∧ ¬ flagged j evs
                   ∧ ∃ dm mm, rows (df s') !! j
                              = scored_row dm mm <$> rows (df s) !! j)).

(** The table after the two columns are ensured. *)
Definition prepared (data : DataFrame) : DataFrame :=
  ensure_column mobile_col (ensure_column desktop_col data).

Definition with_table (d : DataFrame) (s : State) : State :=
  {| df := d; fs := fs s; live := live s; trace := trace s |}.

(** The write-back and the export, from the state the loop leaves. *)
Definition persisted (W : World) (local_excel_path : string) (s : State)
  : result unit * State :=
  let payload := sheet_payload (df s) in
  let s' := add_events
              [ESheetUpdate payload;
               EPrint (if sheet_accepts W payload then SheetUpdated
                       else ErrorUpdatingSheet APIError)] s in
  if excel_writable W local_excel_path
  then (Ret tt, add_events [EToExcel local_excel_path payload;
                            EPrint (ResultsSaved local_excel_path)] s')
  else (Raise OSError, add_events [EToExcel local_excel_path payload] s').

(** [requests.get(url)] answers with status 200. *)
Definition download_ok (W : World) (url : string) : bool :=
  match requests_get W url with
  | Response status_code _ => (status_code =? 200)%nat
  | RequestException => false
  end.

(** The value of a field of a row of the table. *)
Definition field (s : State) (index : nat) (col : string) : option cell :=
  rows (df s) !! index ≫= (λ row, row !! col).

(** ** Sample inputs *)

Definition grey_pixel (v : Z) : pixel := (v, v, v).

Definition solid (h w : nat) (v : Z) : image :=
  replicate h (replicate w (grey_pixel v)).

Definition checker (h w : nat) (inverted : bool) : image :=
  (λ i, (λ j, grey_pixel (if xorb (Nat.even (i + j)) inverted then 255 else 0)%Z)
          <$> seq 0 w) <$> seq 0 h.

Definition tiny_files : gmap string file :=
  {[ "ref.png" := FImage (solid 5 5 200);
     "shot.png" := FImage (checker 9 9 false) ]}.

Definition sample_files : gmap string file :=
  {[ "ref.png" := FImage (checker 8 9 false);
     "shot.png" := FImage (checker 7 7 true) ]}.

Definition copy_files (m : image) : gmap string file :=
  {[ "ref.png" := FImage m; "copy.png" := FImage m ]}.

Definition sheet_columns : list string :=
  ["HTML Code"; "CSS Code"; "Desktop Reference Image"; "Mobile Reference Image"].

Definition case_row (html css desktop_url mobile_url : cell) : gmap string cell :=
  {[ "HTML Code" := html; "CSS Code" := css;
     "Desktop Reference Image" := desktop_url;
     "Mobile Reference Image" := mobile_url ]}.

Definition hello_row : gmap string cell :=
  case_row (CStr "<div>Hello</div>") (CStr "div{color:red}")
           (CStr "http://refs/desktop.png") (CStr "http://refs/mobile.png").

Definition hello_sheet : DataFrame :=
  {| columns := sheet_columns; rows := [hello_row] |}.

(** A world in which every reference is served, every page renders to the
    same picture with a scroll height of 1500, and both sinks accept. *)
Definition fair_world (data : DataFrame) : World :=
  {| open_sheet := λ _ _, Ret data;
     requests_get := λ _, Response 200 (FImage (checker 8 8 false));
     chrome := λ _ _, Captured 1500 (FImage (checker 8 8 false));
     sheet_accepts := λ _, true;
     excel_writable := λ _, true |}.

Definition with_http (http : string → http_response) (W : World) : World :=
  {| open_sheet := open_sheet W; requests_get := http; chrome := chrome W;
     sheet_accepts := sheet_accepts W; excel_writable := excel_writable W |}.

Definition with_chrome (browser : string → Viewport → session) (W : World) : World :=
  {| open_sheet := open_sheet W; requests_get := requests_get W; chrome := browser;
     sheet_accepts := sheet_accepts W; excel_writable := excel_writable W |}.

Definition with_sinks (update_ok excel_ok : bool) (W : World) : World :=
  {| open_sheet := open_sheet W; requests_get := requests_get W; chrome := chrome W;
     sheet_accepts := λ _, update_ok; excel_writable := λ _, excel_ok |}.

(** A run of the batch with the exact library, from an empty staging
    directory. *)
Definition run (W : World) : result unit * State :=
  process_google_sheet (L := exact_lib) W "sheet" "key.json" "results.xlsx" (start ∅).

Definition short_page : World :=
  with_chrome (λ _ _, Captured 300 (FImage (checker 8 8 false)))
              (fair_world hello_sheet).

Definition blank_style_row : gmap string cell :=
  case_row (CStr "<div>Hello</div>") (CStr "   ")
           (CStr "http://refs/desktop.png") (CStr "http://refs/mobile.png").

(** A sheet that already has the two result columns, filled by an earlier
    run, whose only row has lost its markup. *)
Definition rerun_sheet : DataFrame :=
  {| columns := sheet_columns ++ [desktop_col; mobile_col];
     rows := [ <[mobile_col := CNum (913 # 10)]>
                 (<[desktop_col := CNum (175 # 2)]>
                    (case_row (CStr EmptyString) (CStr "div{color:red}")
                              (CStr "http://refs/desktop.png")
                              (CStr "http://refs/mobile.png"))) ] |}.


Definition page_path (index : nat) : string :=
  path_join TEMP_DIR ("page_" +:+ str_of_index index +:+ ".html").
Definition style_path (index : nat) : string :=
  path_join TEMP_DIR ("style_" +:+ str_of_index index +:+ ".css").

(** The desktop page fails to load; the mobile page renders. *)
Definition desktop_load_fails : World :=
  with_chrome (λ _ vp, if (vp_width vp =? 1920)%nat then GetFails
                       else Captured 1500 (FImage (checker 8 8 false)))
              (fair_world hello_sheet).

(** The two references are a checkerboard and its negative. *)
Definition negative_reference : World :=
  with_http (λ url, if String.eqb url "http://refs/mobile.png"
                    then Response 200 (FImage (checker 8 8 true))
                    else Response 200 (FImage (checker 8 8 false)))
            (fair_world hello_sheet).

Definition sink_events (W : World) (path : string) (s : State) : list event :=
  let payload := sheet_payload (df s) in
  [ESheetUpdate payload;
   EPrint (if sheet_accepts W payload then SheetUpdated
           else ErrorUpdatingSheet APIError);
   EToExcel path payload]
  ++ if excel_writable W path then [EPrint (ResultsSaved path)] else [].

(** The spreadsheet service rejects the update; the Excel file is written. *)
Definition update_rejected : World := with_sinks false true (fair_world hello_sheet).

(** The first row holds a number where its markup should be; the second is
    well formed. *)
Definition numeric_sheet : DataFrame :=
  {| columns := sheet_columns;
     rows := [ case_row (CNum 123) (CStr "div{color:red}")
                        (CStr "http://refs/desktop.png")
                        (CStr "http://refs/mobile.png");
               hello_row ] |}.

(** ** Vocabulary of the further properties *)

(** The six files a row keeps in the staging directory. *)
Definition staging_paths (index : nat) : list string :=
  [page_path index; style_path index; desktop_screenshot_path index;
   mobile_screenshot_path index; desktop_ref_path index; mobile_ref_path index].

(** The events between the state [s] and a later state [s']. *)
Definition emitted (s s' : State) : list event :=
  drop (length (trace s)) (trace s').

(** The addresses requested, in order. *)
Definition requests (evs : list event) : list string :=
  omap (λ e, match e with EHttpGet url => Some url | _ => None end) evs.

(** The rows named by the messages about skipped or failed rows, in
    order. *)
Definition failures (evs : list event) : list nat := omap failure_index evs.

(** [s'] is [s] after the events of a step of row [index]: the table is the
    same, only staging files of the row are written, no file disappears;
    [fl] are the rows the messages name, [rq] the addresses requested and
    [sts] the browsers started, in order. *)
Definition effects (index : nat) (fl : list nat) (rq : list string)
  (sts : list Viewport) (s s' : State) : Prop :=
  df s' = df s
  ∧ (∀ p, p ∉ staging_paths index → fs s' !! p = fs s !! p)
  ∧ (∀ p, is_Some (fs s !! p) → is_Some (fs s' !! p))
  ∧ ∃ evs : list event, trace s' = trace s ++ evs
      ∧ failures evs = fl ∧ requests evs = rq ∧ starts evs = sts.

(** How the body of the loop ends on a row whose four cells are text that
    strips to [html], [css], [durl] and [murl], with what it did on the
    way. *)
Inductive row_account {L : ImageLib} (W : World) (index : nat)
  (html css durl murl : string) (s : State) : State → Prop :=
| AccountSkipped (s' : State) :
    (is_empty html || is_empty css) || (is_empty durl || is_empty murl) = true →
    effects index [index] [] [] s s' →
    row_account W index html css durl murl s s'
| AccountUnfetched (s' : State) :
    (is_empty html || is_empty css) || (is_empty durl || is_empty murl) = false →
    download_ok W durl && download_ok W murl = false →
    effects index [index] (if download_ok W durl then [durl; murl] else [durl]) []
      s s' →
    row_account W index html css durl murl s s'
| AccountFailed (sts : list Viewport) (s' : State) :
    (is_empty html || is_empty css) || (is_empty durl || is_empty murl) = false →
    download_ok W durl && download_ok W murl = true →
    sts = [desktop_viewport] ∨ sts = [desktop_viewport; mobile_viewport] →
    effects index [index] [durl; murl] sts s s' →
    row_account W index html css durl murl s s'
| AccountScored (s1 s2 s' : State) (dm mm : Q) :
    (is_empty html || is_empty css) || (is_empty durl || is_empty murl) = false →
    download_ok W durl && download_ok W murl = true →
    effects index [] [durl; murl] [desktop_viewport; mobile_viewport] s s' →
    fst (pixel_match (desktop_ref_path index) (desktop_screenshot_path index) s1)
    = Ret dm →
    fst (pixel_match (mobile_ref_path index) (mobile_screenshot_path index) s2)
    = Ret mm →
    row_account W index html css durl murl s (record_scores index dm mm s').

(** Row [j] after the events [evs]: named by a message and as it was, or
    not named and holding two scores. *)
Definition settled (j : nat) (evs : list event)
  (old new : option (gmap string cell)) : Prop :=
  (j ∈ failures evs ∧ new = old)
  ∨ ((j ∉ failures evs)
     ∧ ∃ dm mm, is_score dm ∧ is_score mm ∧ new = scored_row dm mm <$> old).

(** What holds between the states before and after the rows numbered
    [idxs] are processed, none of them being rejected. *)
Definition accounted (idxs : list nat) (s s' : State) : Prop :=
  columns (df s') = columns (df s)
  ∧ (∀ p, (∀ i, i ∈ idxs → p ∉ staging_paths i) → fs s' !! p = fs s !! p)
  ∧ (∀ p, is_Some (fs s !! p) → is_Some (fs s' !! p))
  ∧ ∃ evs : list event, trace s' = trace s ++ evs
      ∧ sublist (failures evs) idxs
      ∧ length (requests evs) ≤ 2 * length idxs
      ∧ length (starts evs) ≤ 2 * length idxs
      ∧ ∀ j, (j ∉ idxs → rows (df s') !! j = rows (df s) !! j)
             ∧ (j ∈ idxs → settled j evs (rows (df s) !! j) (rows (df s') !! j)).

(** A string of white space only. *)
Definition blank (s : string) : bool := forallb is_space (list_ascii_of_string s).


(** What a capture that goes well does, in order, the page being
    [total_height] high. *)
Definition capture_script (html_file output_file : string) (vp : Viewport)
  (total_height : nat) : list event :=
  [EChromeStart vp; EDriverGet html_file; ESleep 2; EHideScrollbar; EMeasureHeight;
   ESetWindowSize (vp_width vp) total_height; ESaveScreenshot output_file;
   EWriteFile output_file; EPrint (ScreenshotSaved output_file); EQuit].

(** The image a file decodes to. *)
Definition decoded (c : file) : option image :=
  match c with
  | FImage m => if decodes m then Some m else None
  | FData _ => None
  end.

(** The two comparisons and the two writes that end the body of the
    loop. *)
Definition score_row {L : ImageLib} (index : nat) : M unit :=
  desktop_match ← pixel_match (desktop_ref_path index) (desktop_screenshot_path index);
  mobile_match ← pixel_match (mobile_ref_path index) (mobile_screenshot_path index);
  modify_df (df_at_set index desktop_col (CNum desktop_match)) ;;
  modify_df (df_at_set index mobile_col (CNum mobile_match)).

(** * Properties of the exact image library *)

Lemma zsum_cons (a : Z) (l : list Z) : zsum (a :: l) = (a + zsum l)%Z.
Proof. reflexivity. Qed.

Lemma zsum_app (l k : list Z) : zsum (l ++ k) = (zsum l + zsum k)%Z.
Proof. induction l as [|a l IH]; simpl; [reflexivity | rewrite IH; lia]. Qed.

Lemma zsum_sq_nonneg (l : list Z) : (0 <= zsum (zip_with Z.mul l l))%Z.
Proof. induction l as [|a l IH]; simpl; [lia | nia]. Qed.

(** Sum of squared distances to a point. *)
Lemma zsum_shift_sq (a : Z) (l : list Z) :
  (0 <= zsum (zip_with Z.mul l l) - 2 * a * zsum l + Z.of_nat (length l) * a * a)%Z.
Proof.
  induction l as [|b l IH]; [simpl; lia|].
  cbn [zip_with length]. rewrite !zsum_cons, Nat2Z.inj_succ.
  pose proof (Z.square_nonneg (b - a)). nia.
Qed.

(** The variance of a list is not negative. *)
Lemma zsum_cauchy (l : list Z) :
  (zsum l * zsum l <= Z.of_nat (length l) * zsum (zip_with Z.mul l l))%Z.
Proof.
  induction l as [|a l IH]; [simpl; lia|].
  cbn [zip_with length]. rewrite !zsum_cons, Nat2Z.inj_succ.
  pose proof (zsum_shift_sq a l). nia.
Qed.

Lemma zsum_sub_sq (x y : list Z) :
  length x = length y →
  zsum (zip_with Z.sub x y) = (zsum x - zsum y)%Z ∧
  zsum (zip_with Z.mul (zip_with Z.sub x y) (zip_with Z.sub x y))
  = (zsum (zip_with Z.mul x x) - 2 * zsum (zip_with Z.mul x y)
     + zsum (zip_with Z.mul y y))%Z.
Proof.
  revert y. induction x as [|a x IH]; intros [|b y] Hlen; simpl in Hlen; try lia.
  - split; reflexivity.
  - destruct (IH y) as [H1 H2]; [lia|]. cbn [zip_with]. rewrite !zsum_cons, H1, H2. split; lia.
Qed.

Lemma zsum_add_sq (x y : list Z) :
  length x = length y →
  zsum (zip_with Z.add x y) = (zsum x + zsum y)%Z ∧
  zsum (zip_with Z.mul (zip_with Z.add x y) (zip_with Z.add x y))
  = (zsum (zip_with Z.mul x x) + 2 * zsum (zip_with Z.mul x y)
     + zsum (zip_with Z.mul y y))%Z.
Proof.
  revert y. induction x as [|a x IH]; intros [|b y] Hlen; simpl in Hlen; try lia.
  - split; reflexivity.
  - destruct (IH y) as [H1 H2]; [lia|]. cbn [zip_with]. rewrite !zsum_cons, H1, H2. split; lia.
Qed.

(** The three inequalities on the sums of a pair of windows of [n] values. *)
Lemma window_sums (x y : list Z) (n : Z) :
  length x = length y → n = Z.of_nat (length x) →
  let sx := zsum x in let sy := zsum y in
  let sxx := zsum (zip_with Z.mul x x) in
  let syy := zsum (zip_with Z.mul y y) in
  let sxy := zsum (zip_with Z.mul x y) in
  (sx * sx <= n * sxx ∧ sy * sy <= n * syy
   ∧ (sx - sy) * (sx - sy) <= n * (sxx - 2 * sxy + syy)
   ∧ (sx + sy) * (sx + sy) <= n * (sxx + 2 * sxy + syy))%Z.
Proof.
  intros Hlen Hn. cbv zeta. subst n.
  pose proof (zsum_cauchy x) as Hx. pose proof (zsum_cauchy y) as Hy.
  pose proof (zsum_cauchy (zip_with Z.sub x y)) as Hs.
  pose proof (zsum_cauchy (zip_with Z.add x y)) as Ha.
  destruct (zsum_sub_sq x y Hlen) as [S1 S2].
  destruct (zsum_add_sq x y Hlen) as [A1 A2].
  rewrite S1, S2 in Hs. rewrite A1, A2 in Ha.
  rewrite length_zip_with in Hs, Ha.
  rewrite <- Hlen in Hy.
  replace (length x `min` length y) with (length x) in * by lia.
  repeat split; assumption.
Qed.


Lemma Qsquare_nonneg (a : Q) : (0 <= a * a)%Q.
Proof. destruct a as [n d]. unfold Qle, Qmult. simpl. nia. Qed.

Lemma ssim_formula_range (X Y XX YY XY : Q) :
  (X * X <= 49 * XX → Y * Y <= 49 * YY →
   (X - Y) * (X - Y) <= 49 * (XX - 2 * XY + YY) →
   (X + Y) * (X + Y) <= 49 * (XX + 2 * XY + YY) →
   let ux := X / NP in let uy := Y / NP in
   let uxx := XX / NP in let uyy := YY / NP in let uxy := XY / NP in
   let vx := cov_norm * (uxx - ux * ux) in
   let vy := cov_norm * (uyy - uy * uy) in
   let vxy := cov_norm * (uxy - ux * uy) in
   let A1 := 2 * ux * uy + C1 in
   let A2 := 2 * vxy + C2 in
   let B1 := ux * ux + uy * uy + C1 in
   let B2 := vx + vy + C2 in
   0 < B1 ∧ 0 < B2 ∧ -B1 <= A1 ∧ A1 <= B1 ∧ -B2 <= A2 ∧ A2 <= B2)%Q.
Proof.
  intros H1 H2 H3 H4. cbv zeta. unfold cov_norm, NP, C1, C2, Qdiv.
  change (/ (49 - 1))%Q with (1 # 48)%Q. change (/ 49)%Q with (1 # 49)%Q.
  pose proof (Qsquare_nonneg X) as S1.
  pose proof (Qsquare_nonneg Y) as S2.
  pose proof (Qsquare_nonneg (X - Y)) as S3.
  pose proof (Qsquare_nonneg (X + Y)) as S4.
  repeat split; lra.
Qed.

Lemma ratio_range (A1 A2 B1 B2 : Q) :
  (0 < B1 → 0 < B2 → -B1 <= A1 → A1 <= B1 → -B2 <= A2 → A2 <= B2 →
   -1 <= (A1 * A2) / (B1 * B2) ∧ (A1 * A2) / (B1 * B2) <= 1)%Q.
Proof.
  intros HB1 HB2 L1 U1 L2 U2.
  assert (0 < B1 * B2)%Q as HD by (apply Qmult_lt_0_compat; assumption).
  assert (0 <= (B1 - A1) * (B2 + A2))%Q as P1 by (apply Qmult_le_0_compat; lra).
  assert (0 <= (B1 + A1) * (B2 - A2))%Q as P2 by (apply Qmult_le_0_compat; lra).
  assert (0 <= (B1 - A1) * (B2 - A2))%Q as P3 by (apply Qmult_le_0_compat; lra).
  assert (0 <= (B1 + A1) * (B2 + A2))%Q as P4 by (apply Qmult_le_0_compat; lra).
  split.
  - apply Qle_shift_div_l; [assumption | lra].
  - apply Qle_shift_div_r; [assumption | lra].
Qed.

Lemma ssim_window_range (x y : list Z) :
  length x = 49%nat → length y = 49%nat →
  (-1 <= ssim_window x y)%Q ∧ (ssim_window x y <= 1)%Q.
Proof.
  intros Hx Hy.
  destruct (window_sums x y 49) as (H1 & H2 & H3 & H4); [lia | lia |].
  rewrite Zle_Qle in H1, H2, H3, H4.
  rewrite !inject_Z_mult in H1, H2, H3, H4.
  unfold Z.sub in H3.
  rewrite !inject_Z_plus, !inject_Z_opp, !inject_Z_mult in H3.
  rewrite !inject_Z_plus, !inject_Z_mult in H4.
  change (inject_Z 49) with 49%Q in *. change (inject_Z 2) with 2%Q in *.
  destruct (ssim_formula_range _ _ _ _ _ H1 H2 H3 H4) as (B1 & B2 & L1 & U1 & L2 & U2).
  unfold ssim_window, uniform_mean. apply ratio_range; assumption.
Qed.

Lemma ssim_window_refl (x : list Z) :
  length x = 49%nat → (ssim_window x x == 1)%Q.
Proof.
  intros Hx.
  destruct (window_sums x x 49) as (H1 & H2 & H3 & H4); [lia | lia |].
  rewrite Zle_Qle in H1, H2, H3, H4.
  rewrite !inject_Z_mult in H1, H2, H3, H4.
  unfold Z.sub in H3.
  rewrite !inject_Z_plus, !inject_Z_opp, !inject_Z_mult in H3.
  rewrite !inject_Z_plus, !inject_Z_mult in H4.
  change (inject_Z 49) with 49%Q in *. change (inject_Z 2) with 2%Q in *.
  destruct (ssim_formula_range _ _ _ _ _ H1 H2 H3 H4) as (B1 & B2 & _).
  unfold ssim_window, uniform_mean in *.
  set (u := (inject_Z (zsum x) / NP)%Q) in *.
  set (uu := (inject_Z (zsum (zip_with Z.mul x x)) / NP)%Q) in *.
  set (v := (cov_norm * (uu - u * u))%Q) in *.
  assert ((2 * u * u + C1) * (2 * v + C2) == (u * u + u * u + C1) * (v + v + C2))%Q as E by ring.
  rewrite E. apply Qmult_inv_r.
  intros Hz. assert (0 < (u * u + u * u + C1) * (v + v + C2))%Q as HD
    by (apply Qmult_lt_0_compat; assumption).
  rewrite Hz in HD. apply (Qlt_irrefl 0). exact HD.
Qed.

Lemma grid_shape {A} (m : list (list A)) (h w : nat) :
  grid m h w → (0 < h)%nat → img_rows m = h ∧ img_cols m = w.
Proof.
  intros [Hh Hw] Hpos. split; [exact Hh|].
  destruct m as [|r m]; simpl in *; [lia|].
  inversion Hw; assumption.
Qed.

Lemma concat_length_const {A} (ls : list (list A)) (k : nat) :
  Forall (λ l, length l = k) ls → length (concat ls) = (length ls * k)%nat.
Proof.
  induction 1 as [|l ls Hl _ IH]; simpl; [reflexivity|].
  rewrite length_app, Hl, IH. reflexivity.
Qed.

Lemma patch_length (g : gray) (h w i j : nat) :
  grid g h w → (i + 7 ≤ h)%nat → (j + 7 ≤ w)%nat → length (patch g i j) = 49%nat.
Proof.
  intros [Hh Hw] Hi Hj. unfold patch, win_size.
  rewrite (concat_length_const _ 7).
  - rewrite length_fmap, length_take, length_drop. lia.
  - apply Forall_fmap. apply Forall_take, Forall_drop.
    eapply Forall_impl; [exact Hw|]. intros r Hr. simpl.
    rewrite length_take, length_drop. simpl in Hr. lia.
Qed.

Lemma ssim_map_Forall (P : Q → Prop) (a b : gray) :
  (∀ i j, (i < img_rows a - 6)%nat → (j < img_cols a - 6)%nat →
          P (ssim_window (patch a i j) (patch b i j))) →
  Forall P (ssim_map a b).
Proof.
  intros H. apply List.Forall_forall. intros v Hv.
  unfold ssim_map in Hv. apply in_flat_map in Hv as [i [Hi Hv]].
  apply in_map_iff in Hv as [j [<- Hj]].
  apply in_seq in Hi, Hj. apply H; lia.
Qed.

Lemma ssim_map_length (a b : gray) :
  length (ssim_map a b) = ((img_rows a - 6) * (img_cols a - 6))%nat.
Proof.
  unfold ssim_map.
  rewrite (flat_map_constant_length (c := (img_cols a - 6)%nat)).
  - rewrite length_seq. reflexivity.
  - intros i _. rewrite length_map, length_seq. reflexivity.
Qed.

Lemma qsum_range (l : list Q) :
  Forall (λ v, (-1 <= v)%Q ∧ (v <= 1)%Q) l →
  (- inject_Z (Z.of_nat (length l)) <= qsum l)%Q
  ∧ (qsum l <= inject_Z (Z.of_nat (length l)))%Q.
Proof.
  induction 1 as [|v l [Hlo Hhi] _ [IHlo IHhi]].
  - simpl. split; apply Qle_refl.
  - cbn [length qsum foldr]. rewrite Nat2Z.inj_succ. unfold Z.succ.
    rewrite inject_Z_plus. change (inject_Z 1) with 1%Q.
    fold (qsum l). split; lra.
Qed.

Lemma qsum_ones (l : list Q) :
  Forall (λ v, (v == 1)%Q) l → (qsum l == inject_Z (Z.of_nat (length l)))%Q.
Proof.
  induction 1 as [|v l Hv _ IH].
  - reflexivity.
  - cbn [length qsum foldr]. rewrite Nat2Z.inj_succ. unfold Z.succ.
    rewrite inject_Z_plus. change (inject_Z 1) with 1%Q.
    fold (qsum l). rewrite Hv, IH. ring.
Qed.

Lemma ssim_exact_returns (a b : gray) (h w : nat) :
  grid a h w → grid b h w → (7 ≤ h)%nat → (7 ≤ w)%nat →
  ssim_exact a b
  = Ret (Qred (qsum (ssim_map a b) / inject_Z (Z.of_nat (length (ssim_map a b))))%Q)
  ∧ (0 < inject_Z (Z.of_nat (length (ssim_map a b))))%Q.
Proof.
  intros Ha Hb Hh Hw.
  destruct (grid_shape a h w Ha) as [Hr Hc]; [lia|].
  split.
  - unfold ssim_exact, win_size. rewrite Hr, Hc.
    rewrite (bool_decide_eq_true_2 _ Hb). simpl.
    destruct (Nat.ltb_spec h 7); [lia|]. destruct (Nat.ltb_spec w 7); [lia|].
    reflexivity.
  - rewrite ssim_map_length, Hr, Hc.
    change 0%Q with (inject_Z 0). rewrite <- Zlt_Qlt. nia.
Qed.

Lemma nearest_resize_grid (m : image) (w h : nat) : grid (nearest_resize m w h) h w.
Proof.
  unfold nearest_resize. case_bool_decide as Hg; [exact Hg|].
  unfold sample. split.
  - rewrite !length_fmap, length_seq. reflexivity.
  - apply Forall_fmap, Forall_fmap, Forall_forall. intros i _. simpl.
    rewrite length_fmap, length_seq. reflexivity.
Qed.

Lemma exact_lib_ok : ImageLibOk exact_lib.
Proof.
  split; simpl.
  - intros m w h _ _. apply nearest_resize_grid.
  - intros m h w Hg. unfold nearest_resize. rewrite (bool_decide_eq_true_2 _ Hg). reflexivity.
  - intros m h w [Hh Hw]. unfold gray_of_image. split.
    + rewrite length_map. exact Hh.
    + apply Forall_map. eapply Forall_impl; [exact Hw|]. intros r Hr. simpl.
      rewrite length_map. exact Hr.
  - intros a b h w Ha Hb Hsmall. unfold ssim_exact, win_size.
    destruct (decide (0 < h)%nat) as [Hpos|Hzero].
    + destruct (grid_shape a h w Ha Hpos) as [-> ->].
      rewrite (bool_decide_eq_true_2 _ Hb). simpl.
      destruct (Nat.ltb_spec h 7); [reflexivity|].
      destruct (Nat.ltb_spec w 7); [reflexivity|lia].
    + destruct Ha as [Ha _], Hb as [Hb _].
      assert (h = 0)%nat as -> by lia.
      destruct a; [|discriminate]. destruct b; [|discriminate].
      reflexivity.
  - intros a b h w Ha Hb Hh Hw.
    destruct (ssim_exact_returns a b h w Ha Hb Hh Hw) as [-> Hn].
    destruct (grid_shape a h w Ha) as [Hr Hc]; [lia|].
    eexists. split; [reflexivity|].
    rewrite Qred_correct.
    assert (Forall (λ v, (-1 <= v)%Q ∧ (v <= 1)%Q) (ssim_map a b)) as HF.
    { apply ssim_map_Forall. intros i j Hi Hj.
      apply ssim_window_range; eapply patch_length; eauto; lia. }
    destruct (qsum_range _ HF) as [Hlo Hhi].
    split.
    + apply Qle_shift_div_l; [exact Hn | lra].
    + apply Qle_shift_div_r; [exact Hn | lra].
  - intros a h w Ha Hh Hw.
    destruct (ssim_exact_returns a a h w Ha Ha Hh Hw) as [-> Hn].
    destruct (grid_shape a h w Ha) as [Hr Hc]; [lia|].
    f_equal. change 1%Q with (Qred 1). apply Qred_complete.
    rewrite qsum_ones.
    + apply Qmult_inv_r. intros Hz. rewrite Hz in Hn. exact (Qlt_irrefl 0 Hn).
    + apply ssim_map_Forall. intros i j Hi Hj.
      apply ssim_window_refl. eapply patch_length; eauto; lia.
Qed.

(** * Running the program *)

Ltac munfold :=
  unfold mbind, M_bind, mret, M_ret, bind, ret, raise, lift, emit, print,
    write_file, get_df, modify_df, set_live, get_live, try_except,
    try_finally, imread.

Lemma state_eq (s s' : State) :
  df s = df s' → fs s = fs s' → live s = live s' → trace s = trace s' → s = s'.
Proof. destruct s, s'; simpl; intros; subst; reflexivity. Qed.

Ltac state_eq := apply state_eq; simpl; rewrite <- ?app_assoc; reflexivity.

Section Runs.

Context {L : ImageLib} (W : World).

(** The events of a call of [capture_screenshot_from_file]. *)
Lemma capture_run (html_file output_file : string) (vp : Viewport) (s : State) :
  capture_screenshot_from_file W html_file output_file vp s =
  let before := [EChromeStart vp; EDriverGet html_file] in
  let failed := [EPrint (ErrorCapturing WebDriverException); EQuit] in
  match chrome W html_file vp with
  | StartFails => (Raise WebDriverException, add_events [EChromeStart vp] s)
  | GetFails => (Ret tt, add_events (before ++ failed) s)
  | HideScrollbarFails =>
      (Ret tt, add_events (before ++ [ESleep 2; EHideScrollbar] ++ failed) s)
  | MeasureFails =>
      (Ret tt, add_events (before ++ [ESleep 2; EHideScrollbar; EMeasureHeight]
                           ++ failed) s)
  | ResizeFails h =>
      (Ret tt, add_events (before ++ [ESleep 2; EHideScrollbar; EMeasureHeight;
                                      ESetWindowSize (vp_width vp) h] ++ failed) s)
  | ScreenshotFails h =>
      (Ret tt, add_events (before ++ [ESleep 2; EHideScrollbar; EMeasureHeight;
                                      ESetWindowSize (vp_width vp) h;
                                      ESaveScreenshot output_file] ++ failed) s)
  | Captured h shot =>
      (Ret tt, add_events (before ++ [ESleep 2; EHideScrollbar; EMeasureHeight;
                                      ESetWindowSize (vp_width vp) h;
                                      ESaveScreenshot output_file;
                                      EWriteFile output_file;
                                      EPrint (ScreenshotSaved output_file); EQuit])
                          (add_file output_file shot s))
  end.
Proof.
  unfold capture_screenshot_from_file, chrome_start, driver_get, hide_scrollbar,
    measure_height, set_window_size, save_screenshot, driver_quit.
  munfold. cbv zeta.
  destruct (chrome W html_file vp); simpl; f_equal; state_eq.
Qed.

Lemma download_image_run (url output_path : string) (s : State) :
  download_image W url output_path s =
  match requests_get W url with
  | RequestException =>
      (Ret false, add_events [EHttpGet url; EPrint (ErrorDownloading url RequestError)] s)
  | Response status_code content =>
      if (status_code =? 200)%nat
      then (Ret true, add_events [EHttpGet url; EWriteFile output_path;
                                  EPrint (ImageDownloaded output_path)]
                                 (add_file output_path content s))
      else (Ret false, add_events [EHttpGet url;
                                   EPrint (DownloadFailedStatus url status_code)] s)
  end.
Proof.
  unfold download_image. munfold.
  destruct (requests_get W url) as [code content|]; simpl.
  - destruct (code =? 200)%nat; simpl; f_equal; state_eq.
  - f_equal; state_eq.
Qed.

Lemma pixel_match_run (reference_path test_path : string) (s : State) :
  pixel_match reference_path test_path s =
  match loaded s reference_path, loaded s test_path with
  | None, _ => (Ret 0%Q, add_events [EPrint (ErrorLoadReference reference_path)] s)
  | Some _, None => (Ret 0%Q, add_events [EPrint (ErrorLoadTest test_path)] s)
  | Some ref_image, Some test_image =>
      match sk_ssim (cv_cvtColor ref_image)
              (cv_cvtColor (cv_resize test_image (img_cols ref_image)
                              (img_rows ref_image))) with
      | Ret index =>
          (Ret (round2 (index * 100)),
           add_events [EPrint (MatchPercentage (round2 (index * 100))
                                 reference_path test_path)] s)
      | Raise e => (Raise e, s)
      end
  end.
Proof.
  unfold pixel_match. munfold.
  destruct (loaded s reference_path) as [r|], (loaded s test_path) as [t|]; simpl;
    try (f_equal; state_eq).
  all: destruct (sk_ssim _ _); simpl; f_equal; state_eq.
Qed.

Lemma save_code_to_file_run (html_code css_code : string) (index : nat) (s : State) :
  save_code_to_file html_code css_code index s =
  let html_path := path_join TEMP_DIR ("page_" ++ str_of_index index ++ ".html") in
  let css_path := path_join TEMP_DIR ("style_" ++ str_of_index index ++ ".css") in
  (Ret (html_path, css_path),
   add_events [EWriteFile html_path; EWriteFile css_path]
     (add_file css_path (FData css_code)
        (add_file html_path (FData (html_document html_code index)) s))).
Proof. unfold save_code_to_file. munfold. cbv zeta. f_equal. state_eq. Qed.

End Runs.

(** * Rounding *)

Lemma rint_bounds (q : Q) (a b : Z) :
  (inject_Z a <= q)%Q → (q <= inject_Z b)%Q → (a ≤ rint q ≤ b)%Z.
Proof.
  intros Ha Hb. unfold rint.
  pose proof (Qfloor_le q) as Hf. pose proof (Qlt_floor q) as Hc.
  assert (a ≤ Qfloor q)%Z as Hlo.
  { rewrite <- (Qfloor_Z a). apply Qfloor_resp_le. exact Ha. }
  assert (Qfloor q ≤ b)%Z as Hhi.
  { rewrite <- (Qfloor_Z b). apply Qfloor_resp_le. exact Hb. }
  assert ((1 # 2 <= q - inject_Z (Qfloor q))%Q → (Qfloor q + 1 ≤ b)%Z) as Hup.
  { intros Hr. destruct (Z.eq_dec (Qfloor q) b) as [Heq|Hne]; [|lia].
    rewrite Heq in Hr. lra. }
  destruct (Qcompare_spec (q - inject_Z (Qfloor q)) (1 # 2)) as [He|Hl|Hg].
  - destruct (Z.even (Qfloor q)); [lia|]. split; [lia|]. apply Hup. rewrite He. apply Qle_refl.
  - lia.
  - split; [lia|]. apply Hup. apply Qlt_le_weak. exact Hg.
Qed.

Lemma round2_score (v : Q) :
  (-1 <= v)%Q → (v <= 1)%Q → is_score (round2 (v * 100)).
Proof.
  intros Hlo Hhi. exists (rint (v * 100 * 100)). split; [|reflexivity].
  apply rint_bounds.
  - change (inject_Z (-10000)) with (-10000)%Q. lra.
  - change (inject_Z 10000) with 10000%Q. lra.
Qed.

Lemma zero_score : is_score 0.
Proof. exists 0%Z. split; [lia | reflexivity]. Qed.

Lemma round2_hundred : round2 (1 * 100) = 100%Q.
Proof. reflexivity. Qed.


(** * Decoded images *)

Lemma decodes_grid (m : image) :
  decodes m = true →
  grid m (img_rows m) (img_cols m) ∧ (0 < img_rows m)%nat ∧ (0 < img_cols m)%nat.
Proof.
  unfold decodes. rewrite !andb_true_iff.
  intros [[[Hr Hc] Hrect] _].
  apply Nat.ltb_lt in Hr, Hc. split; [|lia]. split; [reflexivity|].
  apply List.Forall_forall. intros r Hin.
  rewrite forallb_forall in Hrect. apply Nat.eqb_eq. apply Hrect. exact Hin.
Qed.

Lemma loaded_decodes (s : State) (path : string) (m : image) :
  loaded s path = Some m → fs s !! path = Some (FImage m) ∧ decodes m = true.
Proof.
  unfold loaded. destruct (fs s !! path) as [[m'|]|]; try discriminate.
  destruct (decodes m') eqn:E; [|discriminate]. intros [= ->]. auto.
Qed.

(** * The scorer *)

Section Scorer.

Context {L : ImageLib} (HL : ImageLibOk L).

(** The two images handed to [structural_similarity] have the shape of the
    reference. *)
Lemma scorer_shapes (s : State) (reference_path test_path : string)
  (ref_image test_image : image) :
  loaded s reference_path = Some ref_image →
  loaded s test_path = Some test_image →
  let h := img_rows ref_image in
  let w := img_cols ref_image in
  grid (cv_resize test_image w h) h w
  ∧ grid (cv_cvtColor ref_image) h w
  ∧ grid (cv_cvtColor (cv_resize test_image w h)) h w.
Proof.
  intros Hr Ht h w.
  apply loaded_decodes in Hr as [_ Hr]. apply decodes_grid in Hr as (Hg & Hh & Hw).
  pose proof (resize_grid L HL test_image w h Hh Hw) as Hrs.
  split; [exact Hrs|]. split; apply (cvtColor_grid L HL); assumption.
Qed.

Lemma pixel_match_score (reference_path test_path : string) (s : State) (q : Q) :
  fst (pixel_match reference_path test_path s) = Ret q → is_score q.
Proof.
  rewrite pixel_match_run.
  destruct (loaded s reference_path) as [r|] eqn:Er;
    [destruct (loaded s test_path) as [t|] eqn:Et|]; simpl;
    try (intros [= <-]; apply zero_score).
  destruct (scorer_shapes s _ _ r t Er Et) as (_ & Hg1 & Hg2).
  destruct (le_lt_dec 7 (img_rows r)) as [Hh|Hh];
    [destruct (le_lt_dec 7 (img_cols r)) as [Hw|Hw]|].
  - destruct (ssim_range L HL _ _ _ _ Hg1 Hg2 Hh Hw) as (v & -> & Hlo & Hhi).
    simpl. intros [= <-]. apply round2_score; assumption.
  - rewrite (ssim_small L HL _ _ _ _ Hg1 Hg2); [discriminate | right; exact Hw].
  - rewrite (ssim_small L HL _ _ _ _ Hg1 Hg2); [discriminate | left; exact Hh].
Qed.

End Scorer.

(** C1 (amended): for every pair of paths, [pixel_match] returns 0 without
    raising when either image does not load. When both load, the candidate
    is resized to the reference's rows and columns (never the reverse), both
    are converted to grey levels of that same shape, and: if the reference
    is at least 7 pixels high and wide, the windowed similarity index of
    the pair is computed and [round(index * 100, 2)] is returned; if it is
    smaller, [structural_similarity] raises [ValueError] and so does
    [pixel_match]. *)
Theorem pixel_match_contract {L : ImageLib} (HL : ImageLibOk L)
  (reference_path test_path : string) (s : State) :
  match loaded s reference_path, loaded s test_path with
  | Some ref_image, Some test_image =>
      let h := img_rows ref_image in
      let w := img_cols ref_image in
      let resized := cv_resize test_image w h in
      grid resized h w
      ∧ grid (cv_cvtColor ref_image) h w
      ∧ grid (cv_cvtColor resized) h w
      ∧ if (h <? 7)%nat || (w <? 7)%nat
        then fst (pixel_match reference_path test_path s) = Raise ValueError
        else ∃ index,
            sk_ssim (cv_cvtColor ref_image) (cv_cvtColor resized) = Ret index
            ∧ fst (pixel_match reference_path test_path s)
              = Ret (round2 (index * 100))
  | _, _ => fst (pixel_match reference_path test_path s) = Ret 0%Q
  end.
Proof.
  rewrite pixel_match_run.
  destruct (loaded s reference_path) as [r|] eqn:Er;
    [destruct (loaded s test_path) as [t|] eqn:Et|]; try reflexivity.
  destruct (scorer_shapes HL s _ _ r t Er Et) as (Hg0 & Hg1 & Hg2).
  cbv zeta. split; [exact Hg0|]. split; [exact Hg1|]. split; [exact Hg2|].
  destruct (Nat.ltb_spec (img_rows r) 7) as [Hh|Hh]; cbn [orb].
  - rewrite (ssim_small L HL _ _ _ _ Hg1 Hg2); [reflexivity | left; exact Hh].
  - destruct (Nat.ltb_spec (img_cols r) 7) as [Hw|Hw].
    + rewrite (ssim_small L HL _ _ _ _ Hg1 Hg2); [reflexivity | right; exact Hw].
    + destruct (ssim_range L HL _ _ _ _ Hg1 Hg2 Hh Hw) as (v & Hv & _).
      exists v. rewrite Hv. split; reflexivity.
Qed.

(** Counterexample to C1 as stated: both images load, the reference is 5
    by 5, and [pixel_match] raises instead of returning a percentage. *)
Lemma pixel_match_small_reference_raises :
  loaded (start tiny_files) "ref.png" = Some (solid 5 5 200)
  ∧ loaded (start tiny_files) "shot.png" = Some (checker 9 9 false)
  ∧ fst (pixel_match (L := exact_lib) "ref.png" "shot.png" (start tiny_files))
    = Raise ValueError.
Proof. repeat split; vm_compute; reflexivity. Qed.


(** C1 at an 8 by 9 reference and a 7 by 7 candidate. *)
Lemma pixel_match_contract_witness :
  ∃ index,
    fst (pixel_match (L := exact_lib) "ref.png" "shot.png" (start sample_files))
    = Ret (round2 (index * 100)).
Proof.
  pose proof (pixel_match_contract exact_lib_ok "ref.png" "shot.png"
                (start sample_files)) as H.
  change (loaded (start sample_files) "ref.png")
    with (Some (checker 8 9 false)) in H.
  change (loaded (start sample_files) "shot.png")
    with (Some (checker 7 7 true)) in H.
  cbv zeta in H. destruct H as (_ & _ & _ & H).
  change ((img_rows (checker 8 9 false) <? 7)%nat
          || (img_cols (checker 8 9 false) <? 7)%nat) with false in H.
  destruct H as (index & _ & H). exists index. exact H.
Defined.

(** C6 (amended): the result of [pixel_match] depends only on the two
    decoded images, whatever the paths and the rest of the state; the call
    changes neither the table, nor the files, nor the browser count; and an
    image at least 7 pixels high and wide compared with an exact copy of
    itself scores exactly 100. *)
Theorem pixel_match_deterministic {L : ImageLib} (HL : ImageLibOk L) :
  (∀ (s s' : State) (r t r' t' : string),
     loaded s r = loaded s' r' → loaded s t = loaded s' t' →
     fst (pixel_match r t s) = fst (pixel_match r' t' s'))
  ∧ (∀ (s : State) (r t : string),
       df (snd (pixel_match r t s)) = df s
       ∧ fs (snd (pixel_match r t s)) = fs s
       ∧ live (snd (pixel_match r t s)) = live s)
  ∧ (∀ (s : State) (r t : string) (img : image),
       loaded s r = Some img → loaded s t = Some img →
       (7 ≤ img_rows img)%nat → (7 ≤ img_cols img)%nat →
       fst (pixel_match r t s) = Ret 100%Q).
Proof.
  split; [|split].
  - intros s s' r t r' t' Hr Ht. rewrite !pixel_match_run, Hr, Ht.
    destruct (loaded s' r') as [a|]; [destruct (loaded s' t') as [b|]|];
      try reflexivity.
    destruct (sk_ssim _ _); reflexivity.
  - intros s r t. rewrite pixel_match_run.
    destruct (loaded s r) as [a|]; [destruct (loaded s t) as [b|]|];
      try (repeat split; reflexivity).
    destruct (sk_ssim _ _); repeat split; reflexivity.
  - intros s r t img Hr Ht Hh Hw. rewrite pixel_match_run, Hr, Ht.
    pose proof Hr as Hd. apply loaded_decodes in Hd as [_ Hd].
    apply decodes_grid in Hd as (Hg & _ & _).
    rewrite (resize_same L HL _ _ _ Hg).
    rewrite (ssim_refl L HL _ _ _ (cvtColor_grid L HL _ _ _ Hg) Hh Hw).
    reflexivity.
Qed.

(** C6 at an 8 by 9 checkerboard and its copy. *)
Lemma pixel_match_deterministic_witness :
  fst (pixel_match (L := exact_lib) "ref.png" "copy.png"
         (start (copy_files (checker 8 9 false))))
  = Ret 100%Q.
Proof.
  apply (proj2 (proj2 (pixel_match_deterministic exact_lib_ok)))
    with (img := checker 8 9 false);
    [reflexivity | reflexivity | simpl; lia | simpl; lia].
Defined.

(** Counterexample to C6 as stated: a readable 5 by 5 image compared with
    an exact copy of itself does not score 100; the call raises. *)
Lemma pixel_match_small_copy_raises :
  loaded (start (copy_files (solid 5 5 200))) "ref.png" = Some (solid 5 5 200)
  ∧ loaded (start (copy_files (solid 5 5 200))) "copy.png" = Some (solid 5 5 200)
  ∧ fst (pixel_match (L := exact_lib) "ref.png" "copy.png"
           (start (copy_files (solid 5 5 200))))
    = Raise ValueError.
Proof. repeat split; vm_compute; reflexivity. Qed.

(** * What a row does *)

Lemma starts_app (a b : list event) : starts (a ++ b) = starts a ++ starts b.
Proof. unfold starts. apply omap_app. Qed.

Lemma progress_refl (index : nat) (s : State) : progress index false [] s s.
Proof.
  split; [reflexivity|]. split; [reflexivity|].
  exists []. rewrite app_nil_r. repeat split; constructor.
Qed.

Lemma progress_trans (index : nat) (b1 b2 : bool) (st1 st2 : list Viewport)
  (s s1 s2 : State) :
  progress index b1 st1 s s1 → progress index b2 st2 s1 s2 →
  progress index (b1 || b2) (st1 ++ st2) s s2.
Proof.
  intros (Hd1 & Hl1 & evs1 & Ht1 & Hf1 & Hs1 & Hb1)
         (Hd2 & Hl2 & evs2 & Ht2 & Hf2 & Hs2 & Hb2).
  split; [congruence|]. split; [congruence|].
  exists (evs1 ++ evs2). split; [rewrite Ht2, Ht1, app_assoc; reflexivity|].
  split; [apply Forall_app; split; assumption|].
  split; [rewrite starts_app, Hs1, Hs2; reflexivity|].
  destruct b1; simpl.
  - destruct Hb1 as (e & He & Hi). exists e. split; [|exact Hi].
    apply elem_of_app. left. exact He.
  - destruct b2.
    + destruct Hb2 as (e & He & Hi). exists e. split; [|exact Hi].
      apply elem_of_app. right. exact He.
    + apply Forall_app. split; assumption.
Qed.

(** Events added to a state, seen as progress. *)
Lemma progress_add_events (index : nat) (evs : list event)
  (sts : list Viewport) (s : State) :
  starts evs = sts →
  Forall (λ e, row_event index e ∧ failure_index e = None) evs →
  progress index false sts s (add_events evs s).
Proof.
  intros <- H. split; [reflexivity|]. split; [reflexivity|].
  exists evs. split; [reflexivity|].
  split; [eapply Forall_impl; [exact H|]; intros e [He _]; exact He|].
  split; [reflexivity|].
  eapply Forall_impl; [exact H|]. intros e [_ He]. exact He.
Qed.

Lemma progress_add_file (index : nat) (path : string) (c : file) (s : State) :
  progress index false [] s (add_file path c s).
Proof.
  split; [reflexivity|]. split; [reflexivity|].
  exists []. simpl. rewrite app_nil_r. repeat split; constructor.
Qed.

Lemma progress_add_file_events (index : nat) (path : string) (c : file)
  (evs : list event) (sts : list Viewport) (s : State) :
  starts evs = sts →
  Forall (λ e, row_event index e ∧ failure_index e = None) evs →
  progress index false sts s (add_events evs (add_file path c s)).
Proof.
  intros <- H.
  apply (progress_trans index false false [] (starts evs) s (add_file path c s)).
  - apply progress_add_file.
  - apply progress_add_events; [reflexivity | exact H].
Qed.

Lemma progress_flag (index : nat) (m : message) (s : State) :
  failure_index (EPrint m) = Some index →
  progress index true [] s (snd (emit (EPrint m) s)).
Proof.
  intros H. split; [reflexivity|]. split; [reflexivity|].
  exists [EPrint m]. split; [reflexivity|].
  split.
  - constructor; [|constructor]. split; [reflexivity|].
    split; [intros j Hj; congruence | intros w h [=]].
  - split; [reflexivity|]. exists (EPrint m). split; [apply list_elem_of_singleton; reflexivity | exact H].
Qed.

Ltac plain_event :=
  split; [reflexivity | split; [intros ? [=] | intros ? ? [=]; subst; auto]].

Ltac plain_events :=
  cbn [app];
  solve [repeat (apply List.Forall_cons; [split; [plain_event | reflexivity] |]);
         apply List.Forall_nil].

Section Rows.

Context {L : ImageLib} (W : World).

Lemma capture_progress (index : nat) (html_file output_file : string)
  (vp : Viewport) (s : State) :
  vp = desktop_viewport ∨ vp = mobile_viewport →
  progress index false [vp] s
    (snd (capture_screenshot_from_file W html_file output_file vp s)).
Proof.
  intros Hvp. rewrite capture_run. cbv zeta.
  assert (vp_width vp = 1920 ∨ vp_width vp = 420)%nat as Hw
    by (destruct Hvp as [-> | ->]; simpl; auto).
  destruct (chrome W html_file vp); cbn [snd];
    try (apply (progress_add_events index); [reflexivity | plain_events]).
  apply (progress_add_file_events index); [reflexivity | plain_events].
Qed.

Lemma download_image_progress (index : nat) (url output_path : string) (s : State) :
  ∃ ok, fst (download_image W url output_path s) = Ret ok
        ∧ progress index false [] s (snd (download_image W url output_path s)).
Proof.
  rewrite download_image_run.
  destruct (requests_get W url) as [code content|].
  - destruct (code =? 200)%nat; eexists; (split; [reflexivity|]); cbn [snd].
    + apply (progress_add_file_events index); [reflexivity | plain_events].
    + apply (progress_add_events index); [reflexivity | plain_events].
  - eexists; (split; [reflexivity|]); cbn [snd].
    apply (progress_add_events index); [reflexivity | plain_events].
Qed.

Lemma pixel_match_progress (index : nat) (reference_path test_path : string)
  (s : State) :
  progress index false [] s (snd (pixel_match reference_path test_path s)).
Proof.
  rewrite pixel_match_run.
  destruct (loaded s reference_path) as [r|].
  - destruct (loaded s test_path) as [t|].
    + destruct (sk_ssim _ _); cbn [snd]; [|apply progress_refl].
      apply (progress_add_events index); [reflexivity | plain_events].
    + apply (progress_add_events index); [reflexivity | plain_events].
  - apply (progress_add_events index); [reflexivity | plain_events].
Qed.

Lemma save_code_to_file_progress (index : nat) (html_code css_code : string)
  (file_index : nat) (s : State) :
  progress index false [] s (snd (save_code_to_file html_code css_code file_index s)).
Proof.
  rewrite save_code_to_file_run. cbv zeta. cbn [snd].
  eapply (progress_trans index false false [] [] s); [apply progress_add_file|].
  apply (progress_add_file_events index); [reflexivity | plain_events].
Qed.

Lemma progress_step (index : nat) (b1 b2 b : bool) (st1 st2 st : list Viewport)
  (s s1 s2 : State) :
  progress index b1 st1 s s1 → progress index b2 st2 s1 s2 →
  b1 || b2 = b → st1 ++ st2 = st → progress index b st s s2.
Proof. intros H1 H2 <- <-. eapply progress_trans; eassumption. Qed.

Lemma cell_strip_raise (c : cell) (e : exn) :
  cell_strip c = Raise e → e = AttributeError.
Proof. destruct c; simpl; congruence. Qed.

Ltac abort_row key E :=
  pose proof (cell_strip_raise _ _ E); subst;
  apply (RowAborted _ _ _ key); [set_solver | exact E].

Lemma process_row_result (index : nat) (row : gmap string cell) (s : State) :
  row_result index row s (fst (process_row W index row s))
    (snd (process_row W index row s)).
Proof.
  unfold process_row. munfold.
  destruct (cell_strip (row_get row "HTML Code")) as [html|e1] eqn:E1;
    [|abort_row "HTML Code" E1].
  destruct (cell_strip (row_get row "CSS Code")) as [css|e2] eqn:E2;
    [|abort_row "CSS Code" E2].
  destruct (cell_strip (row_get row "Desktop Reference Image")) as [durl|e3] eqn:E3;
    [|abort_row "Desktop Reference Image" E3].
  destruct (cell_strip (row_get row "Mobile Reference Image")) as [murl|e4] eqn:E4;
    [|abort_row "Mobile Reference Image" E4].
  destruct (is_empty html || is_empty css).
  { apply (RowPassed _ _ _ []); [|auto]. apply progress_flag. reflexivity. }
  destruct (is_empty durl || is_empty murl).
  { apply (RowPassed _ _ _ []); [|auto]. apply progress_flag. reflexivity. }
  pose proof (save_code_to_file_progress index html css index s) as P0.
  rewrite save_code_to_file_run in *. cbv beta iota zeta in *. cbn [snd] in P0.
  set (s0 := add_events _ _) in *.
  set (html_file := path_join TEMP_DIR ("page_" +:+ str_of_index index +:+ ".html")).
  destruct (download_image_progress index durl (desktop_ref_path index) s0)
    as (ok1 & D1 & P1).
  destruct (download_image W durl (desktop_ref_path index) s0) as [r1 s1].
  cbn [fst snd] in D1, P1. subst r1.
  pose proof (progress_step _ _ _ _ _ _ _ _ _ _ P0 P1 eq_refl eq_refl) as Q1.
  destruct ok1; cbn [negb].
  2:{ apply (RowPassed _ _ _ []); [|auto].
      eapply progress_step; [exact Q1 | apply progress_flag | |]; reflexivity. }
  destruct (download_image_progress index murl (mobile_ref_path index) s1)
    as (ok2 & D2 & P2).
  destruct (download_image W murl (mobile_ref_path index) s1) as [r2 s2].
  cbn [fst snd] in D2, P2. subst r2.
  pose proof (progress_step _ _ _ _ _ _ _ _ _ _ Q1 P2 eq_refl eq_refl) as Q2.
  destruct ok2; cbn [negb].
  2:{ apply (RowPassed _ _ _ []); [|auto].
      eapply progress_step; [exact Q2 | apply progress_flag | |]; reflexivity. }
  pose proof (capture_progress index html_file (desktop_screenshot_path index)
                desktop_viewport s2 (or_introl eq_refl)) as P3.
  destruct (capture_screenshot_from_file W html_file _ desktop_viewport s2)
    as [r3 s3].
  cbn [snd] in P3.
  pose proof (progress_step _ _ _ _ _ _ _ _ _ _ Q2 P3 eq_refl eq_refl) as Q3.
  destruct r3 as [[]|e].
  2:{ apply (RowPassed _ _ _ [desktop_viewport]); [|auto].
      eapply progress_step; [exact Q3 | apply progress_flag | |]; reflexivity. }
  pose proof (capture_progress index html_file (mobile_screenshot_path index)
                mobile_viewport s3 (or_intror eq_refl)) as P4.
  destruct (capture_screenshot_from_file W html_file _ mobile_viewport s3)
    as [r4 s4].
  cbn [snd] in P4.
  pose proof (progress_step _ _ _ _ _ _ _ _ _ _ Q3 P4 eq_refl eq_refl) as Q4.
  destruct r4 as [[]|e].
  2:{ apply (RowPassed _ _ _ [desktop_viewport; mobile_viewport]); [|auto].
      eapply progress_step; [exact Q4 | apply progress_flag | |]; reflexivity. }
  pose proof (pixel_match_progress index (desktop_ref_path index)
                (desktop_screenshot_path index) s4) as P5.
  destruct (pixel_match (desktop_ref_path index) (desktop_screenshot_path index) s4)
    as [r5 s5] eqn:M5.
  cbn [snd] in P5.
  pose proof (progress_step _ _ _ _ _ _ _ _ _ _ Q4 P5 eq_refl eq_refl) as Q5.
  destruct r5 as [dm|e].
  2:{ apply (RowPassed _ _ _ [desktop_viewport; mobile_viewport]); [|auto].
      eapply progress_step; [exact Q5 | apply progress_flag | |]; reflexivity. }
  pose proof (pixel_match_progress index (mobile_ref_path index)
                (mobile_screenshot_path index) s5) as P6.
  destruct (pixel_match (mobile_ref_path index) (mobile_screenshot_path index) s5)
    as [r6 s6] eqn:M6.
  cbn [snd] in P6.
  pose proof (progress_step _ _ _ _ _ _ _ _ _ _ Q5 P6 eq_refl eq_refl) as Q6.
  destruct r6 as [mm|e].
  2:{ apply (RowPassed _ _ _ [desktop_viewport; mobile_viewport]); [|auto].
      eapply progress_step; [exact Q6 | apply progress_flag | |]; reflexivity. }
  cbn [fst snd].
  apply (RowScored index row s s4 s5 s6 dm mm Q6).
  - rewrite M5. reflexivity.
  - rewrite M6. reflexivity.
Qed.

(** ** The loop *)

Lemma flagged_app (j : nat) (a b : list event) :
  flagged j (a ++ b) ↔ flagged j a ∨ flagged j b.
Proof.
  unfold flagged. split.
  - intros (e & He & Hf). apply elem_of_app in He as [He|He]; [left|right]; eauto.
  - intros [(e & He & Hf)|(e & He & Hf)]; exists e; (split; [|exact Hf]);
      apply elem_of_app; auto.
Qed.

Lemma not_flagged (j : nat) (evs : list event) :
  Forall (λ e, failure_index e = None) evs → ¬ flagged j evs.
Proof.
  intros H (e & He & Hf). rewrite Forall_forall in H. specialize (H e He). congruence.
Qed.

Lemma record_scores_lookup (index : nat) (dm mm : Q) (s : State) :
  rows (df (record_scores index dm mm s)) !! index
  = scored_row dm mm <$> rows (df s) !! index.
Proof.
  unfold record_scores, df_at_set. cbn [df rows].
  rewrite !list_lookup_alter_eq. destruct (rows (df s) !! index); reflexivity.
Qed.

Lemma record_scores_lookup_ne (index j : nat) (dm mm : Q) (s : State) :
  j ≠ index →
  rows (df (record_scores index dm mm s)) !! j = rows (df s) !! j.
Proof.
  intros Hne. unfold record_scores, df_at_set. cbn [df rows].
  rewrite !list_lookup_alter_ne by congruence. reflexivity.
Qed.

Lemma batch_row (index : nat) (row : gmap string cell) (s : State)
  (r : result unit) (s' : State) :
  row_result index row s r s' → batch [index] s s'.
Proof.
  intros [key Hk He | sts s1 (Hd & Hl & evs & Ht & Hf & Hs & Hb) Hsts
         | s1 s2 s1' dm mm (Hd & Hl & evs & Ht & Hf & Hs & Hb) _ _].
  - split; [reflexivity|]. split; [reflexivity|].
    exists []. rewrite app_nil_r. split; [reflexivity|].
    split; [constructor|]. split; [constructor|].
    intros j. split; [|left; reflexivity].
    intros _ (e & He' & _). inversion He'.
  - split; [exact Hl|]. split; [rewrite Hd; reflexivity|].
    exists evs. split; [exact Ht|].
    split; [eapply Forall_impl; [exact Hf|]; intros e (H1 & _); exact H1|].
    split.
    { rewrite Hs. destruct Hsts as [-> | [-> | ->]];
        repeat (apply List.Forall_cons; [auto|]); apply List.Forall_nil. }
    intros j. split; [|left; rewrite Hd; reflexivity].
    intros Hj (e & He' & Hfi). apply Hj.
    rewrite Forall_forall in Hf. destruct (Hf e He') as (_ & H2 & _).
    rewrite (H2 j Hfi). apply list_elem_of_singleton. reflexivity.
  - split; [exact Hl|]. split; [cbn; rewrite Hd; reflexivity|].
    exists evs. split; [exact Ht|].
    split; [eapply Forall_impl; [exact Hf|]; intros e (H1 & _); exact H1|].
    split; [rewrite Hs; repeat (apply List.Forall_cons; [auto|]);
            apply List.Forall_nil|].
    intros j. split; [intros _; apply not_flagged; exact Hb|].
    destruct (decide (j = index)) as [->|Hne];
      [right | left; rewrite record_scores_lookup_ne, Hd by exact Hne; reflexivity].
    rewrite record_scores_lookup, Hd.
    split; [apply list_elem_of_singleton; reflexivity|].
    split; [apply not_flagged; exact Hb|]. exists dm, mm. reflexivity.
Qed.

Lemma batch_cons (i : nat) (idxs : list nat) (s s1 s2 : State) :
  i ∉ idxs → batch [i] s s1 → batch idxs s1 s2 → batch (i :: idxs) s s2.
Proof.
  intros Hi (Hl1 & Hc1 & evs1 & Ht1 & Hk1 & Hs1 & Hr1)
            (Hl2 & Hc2 & evs2 & Ht2 & Hk2 & Hs2 & Hr2).
  split; [congruence|]. split; [congruence|].
  exists (evs1 ++ evs2). split; [rewrite Ht2, Ht1, app_assoc; reflexivity|].
  split; [apply Forall_app; auto|].
  split; [rewrite starts_app; apply Forall_app; auto|].
  intros j. destruct (Hr1 j) as [Hn1 Hd1], (Hr2 j) as [Hn2 Hd2].
  rewrite flagged_app.
  destruct (decide (j = i)) as [->|Hne].
  - assert (rows (df s2) !! i = rows (df s1) !! i) as Hkeep.
    { destruct Hd2 as [H|(Hin & _)]; [exact H | contradiction]. }
    split; [intros Hj; exfalso; apply Hj; left|].
    destruct Hd1 as [H|(_ & Hnf & dm & mm & H)].
    + left. congruence.
    + right. split; [left|]. split; [intros [?|?]; [auto | apply Hn2; auto]|].
      exists dm, mm. congruence.
  - assert (i ≠ j) as Hne' by congruence.
    assert (j ∉ [i]) as Hj1.
    { intros Hin. apply list_elem_of_singleton in Hin. congruence. }
    assert (rows (df s1) !! j = rows (df s) !! j) as Hkeep.
    { destruct Hd1 as [H|(Hin & _)]; [exact H | contradiction]. }
    split.
    + intros Hj [?|?]; [apply Hn1; auto|]. apply Hn2; [|assumption].
      intros Hin. apply Hj. right. exact Hin.
    + destruct Hd2 as [H|(Hin & Hnf & dm & mm & H)].
      * left. congruence.
      * right. split; [right; exact Hin|].
        split; [intros [?|?]; [apply Hn1; auto | auto]|].
        exists dm, mm. congruence.
Qed.

Lemma batch_refl (idxs : list nat) (s : State) : batch idxs s s.
Proof.
  split; [reflexivity|]. split; [reflexivity|].
  exists []. rewrite app_nil_r. split; [reflexivity|].
  split; [constructor|]. split; [constructor|].
  intros j. split; [|left; reflexivity].
  intros _ (e & He & _). inversion He.
Qed.

Lemma batch_weaken (i : nat) (idxs : list nat) (s s' : State) :
  batch [i] s s' → i ∉ idxs → batch (i :: idxs) s s'.
Proof. intros H Hi. eapply batch_cons; [exact Hi | exact H | apply batch_refl]. Qed.

(** The loop over any rows with distinct numbers. *)
Lemma for_each_batch (l : list (nat * gmap string cell)) (s : State) :
  NoDup l.*1 → batch l.*1 s (snd (for_each l (loop_body W) s)).
Proof.
  revert s. induction l as [|[i row] l IH]; intros s Hnd.
  - apply batch_refl.
  - cbn [for_each fmap list_fmap fst]. apply NoDup_cons in Hnd as [Hi Hnd].
    unfold bind. cbn [loop_body].
    pose proof (process_row_result i row s) as Hrow.
    destruct (process_row W i row s) as [r s1]. cbn [fst snd] in Hrow.
    apply batch_row in Hrow.
    destruct r as [[]|e]; cbn [snd].
    + eapply batch_cons; [exact Hi | exact Hrow | apply IH; exact Hnd].
    + apply batch_weaken; assumption.
Qed.

Lemma text_row_strip (row : gmap string cell) (key : string) :
  text_row row = true → key ∈ input_keys →
  cell_strip (row_get row key) ≠ Raise AttributeError.
Proof.
  unfold text_row. rewrite forallb_forall. intros H Hk.
  apply list_elem_of_In in Hk. specialize (H key Hk).
  destruct (row_get row key); simpl in *; congruence.
Qed.

Lemma process_row_returns (index : nat) (row : gmap string cell) (s : State) :
  text_row row = true → fst (process_row W index row s) = Ret tt.
Proof.
  intros Ht. destruct (process_row_result index row s) as [key Hk He| |];
    try reflexivity.
  exfalso. exact (text_row_strip row key Ht Hk He).
Qed.

Lemma process_row_raises (index : nat) (row : gmap string cell) (s : State)
  (e : exn) :
  fst (process_row W index row s) = Raise e →
  e = AttributeError ∧ text_row row = false
  ∧ snd (process_row W index row s) = s.
Proof.
  intros Hr. pose proof (process_row_result index row s) as H.
  rewrite Hr in H. inversion H as [key Hk He Hs | |]; subst.
  split; [reflexivity|]. split; [|congruence].
  destruct (text_row row) eqn:Ht; [|reflexivity].
  exfalso. exact (text_row_strip row key Ht Hk He).
Qed.

(** The loop returns when every row holds text in its four input cells, and
    raises at the first row that does not. *)
Lemma for_each_returns (l : list (nat * gmap string cell)) (s : State) :
  forallb text_row l.*2 = true → fst (for_each l (loop_body W) s) = Ret tt.
Proof.
  revert s. induction l as [|[i row] l IH]; intros s Hall; [reflexivity|].
  cbn [fmap list_fmap snd forallb] in Hall. apply andb_true_iff in Hall as [Hrow Hall].
  cbn [for_each]. unfold bind. cbn [loop_body].
  pose proof (process_row_returns i row s Hrow) as Hr.
  destruct (process_row W i row s) as [r s1]. cbn [fst] in Hr. subst r.
  apply IH. exact Hall.
Qed.

Lemma for_each_raises (l : list (nat * gmap string cell)) (s : State) (e : exn) :
  fst (for_each l (loop_body W) s) = Raise e →
  e = AttributeError ∧ forallb text_row l.*2 = false.
Proof.
  revert s. induction l as [|[i row] l IH]; intros s; [discriminate|].
  cbn [for_each fmap list_fmap snd forallb]. unfold bind. cbn [loop_body].
  pose proof (process_row_raises i row s) as Hr.
  destruct (process_row W i row s) as [r s1]. cbn [fst snd] in Hr.
  destruct r as [[]|e'].
  - intros H. destruct (IH s1 H) as [-> Hf]. split; [reflexivity|].
    rewrite Hf. apply andb_false_r.
  - cbn [fst]. intros [= ->]. destruct (Hr e eq_refl) as (-> & Ht & _).
    split; [reflexivity|]. rewrite Ht. reflexivity.
Qed.

Lemma iterrows_indices (d : DataFrame) :
  (iterrows d).*1 = seq 0 (length (rows d)).
Proof.
  unfold iterrows. rewrite fmap_imap.
  rewrite (imap_ext _ (λ j _, j)) by (intros; reflexivity).
  rewrite imap_seq_0. apply list_fmap_id.
Qed.

Lemma iterrows_rows (d : DataFrame) : (iterrows d).*2 = rows d.
Proof.
  unfold iterrows. rewrite fmap_imap.
  rewrite (imap_ext _ (const id)) by (intros; reflexivity).
  rewrite imap_const. apply list_fmap_id.
Qed.

(** ** The whole run *)

Lemma process_google_sheet_run (sheet_url credentials local_excel_path : string)
  (s : State) :
  process_google_sheet W sheet_url credentials local_excel_path s =
  match open_sheet W sheet_url credentials with
  | Raise e => (Raise e, s)
  | Ret data =>
      match for_each (iterrows (prepared data)) (loop_body W)
              (with_table (prepared data) s) with
      | (Ret _, s1) => persisted W local_excel_path s1
      | (Raise e, s1) => (Raise e, s1)
      end
  end.
Proof.
  unfold process_google_sheet, worksheet_update, to_excel, persisted. munfold.
  destruct (open_sheet W sheet_url credentials) as [data|e]; [|reflexivity].
  cbn [df]. fold (prepared data).
  change {| df := prepared data; fs := _; live := _; trace := _ |}
    with (with_table (prepared data) s).
  change (λ '(index, row), process_row W index row) with (loop_body W).
  destruct (for_each _ (loop_body W) _) as [[[]|e] s1]; [|reflexivity].
  cbn [df trace fs live]. cbv zeta.
  destruct (sheet_accepts W (sheet_payload (df s1)));
    destruct (excel_writable W local_excel_path); cbn; unfold emit; cbn; f_equal; state_eq.
Qed.

End Rows.

(** * The browser *)



(** * Viewports *)





(** * Skipped rows *)

Lemma ensure_column_fresh (col : string) (data : DataFrame) :
  col ∉ columns data →
  columns (ensure_column col data) = columns data ++ [col]
  ∧ Forall (λ row, row !! col = Some CNone) (rows (ensure_column col data)).
Proof.
  intros Hc. unfold ensure_column. rewrite (bool_decide_eq_false_2 _ Hc).
  split; [reflexivity|]. cbn [rows]. apply Forall_fmap, Forall_forall.
  intros row _. cbn. apply lookup_insert_eq.
Qed.

Lemma ensure_column_present (col : string) (data : DataFrame) :
  col ∈ columns data → ensure_column col data = data.
Proof.
  intros Hc. unfold ensure_column. rewrite (bool_decide_eq_true_2 _ Hc). reflexivity.
Qed.

(** C5 (amended): a row whose four input cells hold text and whose markup,
    style, desktop locator or mobile locator is empty after trimming is
    skipped: the only thing the body of the loop does is print the message,
    so nothing is fetched or rendered and neither match field is written.
    The fields are absent when the column was added by this run (a column
    missing from the table is filled with [None]); otherwise they keep the
    values they had. *)
Theorem validation_skips {L : ImageLib} (W : World) (index : nat)
  (row : gmap string cell) (s : State) (html css desktop_url mobile_url : string) :
  cell_strip (row_get row "HTML Code") = Ret html →
  cell_strip (row_get row "CSS Code") = Ret css →
  cell_strip (row_get row "Desktop Reference Image") = Ret desktop_url →
  cell_strip (row_get row "Mobile Reference Image") = Ret mobile_url →
  is_empty html || is_empty css || is_empty desktop_url || is_empty mobile_url = true →
  process_row W index row s
  = (Ret tt,
     add_events [EPrint (if is_empty html || is_empty css
                         then SkipMissingCode index
                         else SkipMissingUrls index)] s)
  ∧ ∀ (data : DataFrame) (col : string),
      col ∉ columns data →
      Forall (λ r, r !! col = Some CNone) (rows (ensure_column col data)).
Proof.
  intros H1 H2 H3 H4 He. split.
  - unfold process_row. munfold. rewrite H1, H2, H3, H4.
    destruct (is_empty html || is_empty css); [reflexivity|].
    cbn [orb] in He. rewrite He. reflexivity.
  - intros data col Hc. apply ensure_column_fresh. exact Hc.
Qed.

(** C5 at a row whose style is made of spaces. *)
Lemma validation_skips_witness :
  process_row (L := exact_lib) (fair_world hello_sheet) 2 blank_style_row (start ∅)
  = (Ret tt, add_events [EPrint (SkipMissingCode 2)] (start ∅)).
Proof.
  exact (proj1 (validation_skips (L := exact_lib) (fair_world hello_sheet) 2
                  blank_style_row (start ∅) "<div>Hello</div>" EmptyString
                  "http://refs/desktop.png" "http://refs/mobile.png"
                  eq_refl eq_refl eq_refl eq_refl eq_refl)).
Defined.

(** Counterexample to C5 as stated: the row has no markup and is skipped,
    yet its two match fields are not absent after the run; they hold the
    scores of the earlier run. *)
Lemma skipped_row_keeps_old_scores :
  cell_strip (row_get (default ∅ (rows rerun_sheet !! 0)) "HTML Code") = Ret EmptyString
  ∧ fst (run (fair_world rerun_sheet)) = Ret tt
  ∧ field (snd (run (fair_world rerun_sheet))) 0 desktop_col = Some (CNum (175 # 2))
  ∧ field (snd (run (fair_world rerun_sheet))) 0 mobile_col = Some (CNum (913 # 10)).
Proof. repeat split; vm_compute; reflexivity. Qed.

(** * Failed downloads *)






(** * Paths of the staging directory *)

Lemma str_of_index_head (index : nat) (rest : string) :
  String.get 0 (str_of_index index +:+ rest) ≠ Some "r"%char.
Proof.
  unfold str_of_index, NilZero.string_of_uint.
  destruct (Nat.to_uint index); cbn; discriminate.
Qed.



(** * Files left by each step *)

Section Files.
Context {L : ImageLib} (W : World).








End Files.

(** * Rendering failures and the range of scores *)




(** A second counterexample to C3 as stated: against the negative of what
    is rendered the recorded score is below 0. *)
Lemma negative_score_is_recorded :
  fst (run negative_reference) = Ret tt
  ∧ ∃ q, field (snd (run negative_reference)) 0 mobile_col = Some (CNum q)
         ∧ (q < 0)%Q.
Proof.
  split; [vm_compute; reflexivity|].
  eexists. split; [vm_compute; reflexivity|]. vm_compute. reflexivity.
Qed.

(** * The batch *)

Lemma forallb_ext' {A} (f g : A → bool) (l : list A) :
  (∀ x, In x l → f x = g x) → forallb f l = forallb g l.
Proof.
  induction l as [|a l IH]; intros H; [reflexivity|]. cbn [forallb].
  rewrite (H a (or_introl eq_refl)), IH; [reflexivity|].
  intros x Hx. apply H. right. exact Hx.
Qed.

Lemma row_get_insert_ne (col key : string) (v : cell) (row : gmap string cell) :
  col ≠ key → row_get (<[col := v]> row) key = row_get row key.
Proof. intros H. unfold row_get. rewrite lookup_insert_ne by exact H. reflexivity. Qed.

Lemma text_row_insert (col : string) (v : cell) (row : gmap string cell) :
  col ∉ input_keys → text_row (<[col := v]> row) = text_row row.
Proof.
  intros H.
  assert (∀ key, key ∈ input_keys →
                 row_get (<[col := v]> row) key = row_get row key) as Hk.
  { intros key Hin. apply row_get_insert_ne. intros Heq. subst key. contradiction. }
  unfold text_row. apply forallb_ext'. intros key Hin. rewrite Hk; [reflexivity|].
  apply list_elem_of_In. exact Hin.
Qed.

Lemma ensure_column_text (col : string) (d : DataFrame) :
  col ∉ input_keys →
  forallb text_row (rows (ensure_column col d)) = forallb text_row (rows d).
Proof.
  intros H. unfold ensure_column. case_bool_decide; [reflexivity|].
  cbn [rows]. induction (rows d) as [|r l IH]; [reflexivity|].
  cbn [fmap list_fmap forallb]. rewrite text_row_insert by exact H.
  f_equal. exact IH.
Qed.

Lemma match_columns_not_input :
  (desktop_col ∉ input_keys) ∧ (mobile_col ∉ input_keys).
Proof. split; vm_compute; intros H; repeat (inversion H as [|? ? ? H']; clear H; rename H' into H). Qed.

Lemma prepared_text (data : DataFrame) :
  forallb text_row (rows (prepared data)) = forallb text_row (rows data).
Proof.
  destruct match_columns_not_input as [Hd Hm]. unfold prepared.
  rewrite !ensure_column_text by assumption. reflexivity.
Qed.

Lemma prepared_present (data : DataFrame) :
  desktop_col ∈ columns data → mobile_col ∈ columns data → prepared data = data.
Proof.
  intros Hd Hm. unfold prepared.
  rewrite (ensure_column_present desktop_col data Hd).
  apply ensure_column_present. exact Hm.
Qed.

Lemma persisted_run (W : World) (path : string) (s : State) :
  persisted W path s
  = (if excel_writable W path then Ret tt else Raise OSError,
     add_events (sink_events W path s) s).
Proof.
  unfold persisted, sink_events. cbv zeta.
  destruct (excel_writable W path); f_equal; apply state_eq; cbn;
    rewrite <- ?app_assoc; reflexivity.
Qed.



(** What a run leaves, in terms of the table read. *)
Lemma run_batch {L : ImageLib} (W : World) (sheet_url credentials path : string)
  (s : State) (data : DataFrame) :
  open_sheet W sheet_url credentials = Ret data →
  ∃ s1,
    for_each (iterrows (prepared data)) (loop_body W) (with_table (prepared data) s)
    = (fst (for_each (iterrows (prepared data)) (loop_body W)
              (with_table (prepared data) s)), s1)
    ∧ batch (seq 0 (length (rows (prepared data)))) (with_table (prepared data) s) s1
    ∧ process_google_sheet W sheet_url credentials path s
      = match fst (for_each (iterrows (prepared data)) (loop_body W)
                     (with_table (prepared data) s)) with
        | Ret _ => persisted W path s1
        | Raise e => (Raise e, s1)
        end.
Proof.
  intros Hopen. rewrite process_google_sheet_run, Hopen.
  pose proof (for_each_batch W (iterrows (prepared data))
                (with_table (prepared data) s)) as Hb.
  rewrite iterrows_indices in Hb. specialize (Hb (NoDup_seq _ _)).
  destruct (for_each _ _ _) as [r s1]. cbn [fst snd] in *.
  exists s1. split; [reflexivity|]. split; [exact Hb|].
  destruct r as [[]|e]; reflexivity.
Qed.



(** * The sinks *)

Lemma run_on_text_rows {L : ImageLib} (W : World)
  (sheet_url credentials path : string) (s : State) (data : DataFrame) :
  open_sheet W sheet_url credentials = Ret data →
  forallb text_row (rows data) = true →
  ∃ s1,
    batch (seq 0 (length (rows (prepared data)))) (with_table (prepared data) s) s1
    ∧ process_google_sheet W sheet_url credentials path s
      = (if excel_writable W path then Ret tt else Raise OSError,
         add_events (sink_events W path s1) s1).
Proof.
  intros Hopen Htext.
  destruct (run_batch W sheet_url credentials path s data Hopen)
    as (s1 & _ & Hb & ->).
  rewrite for_each_returns
    by (rewrite iterrows_rows, prepared_text; exact Htext).
  exists s1. split; [exact Hb|]. apply persisted_run.
Qed.

(** C8 (amended): on a table whose input cells hold text, the run reaches
    both sinks, which are given the same payload. The outcome of the
    write-back is only printed: whether the update is accepted or raises,
    the export is attempted. The outcome of the export decides the run: if
    the file is written the run returns and the page shows success, even
    when the write-back failed; if not, [OSError] reaches the caller and the
    page shows the error. *)
Theorem sink_failures {L : ImageLib} (W : World) (sheet_url path : string)
  (s : State) (data : DataFrame) :
  open_sheet W sheet_url credentials_path = Ret data →
  forallb text_row (rows data) = true →
  is_empty sheet_url = false →
  ∃ payload,
    ESheetUpdate payload ∈ trace (snd (on_process_sheet W sheet_url path s))
    ∧ EToExcel path payload ∈ trace (snd (on_process_sheet W sheet_url path s))
    ∧ EPrint (if sheet_accepts W payload then SheetUpdated
              else ErrorUpdatingSheet APIError)
      ∈ trace (snd (on_process_sheet W sheet_url path s))
    ∧ fst (process_google_sheet W sheet_url credentials_path path s)
      = (if excel_writable W path then Ret tt else Raise OSError)
    ∧ fst (on_process_sheet W sheet_url path s)
      = (if excel_writable W path then StSuccess path else StErrorOccurred OSError).
Proof.
  intros Hopen Htext Hurl.
  destruct (run_on_text_rows W sheet_url credentials_path path s data Hopen Htext)
    as (s1 & _ & Hrun).
  unfold on_process_sheet. rewrite Hurl. cbn [orb is_empty credentials_path].
  rewrite Hrun. exists (sheet_payload (df s1)).
  assert (∀ e, e ∈ sink_events W path s1 →
               e ∈ trace (add_events (sink_events W path s1) s1)) as Hin.
  { intros e He. cbn [add_events trace]. apply elem_of_app. right. exact He. }
  assert (ESheetUpdate (sheet_payload (df s1)) ∈ sink_events W path s1) as H1
    by (apply elem_of_app; left; repeat constructor).
  assert (EToExcel path (sheet_payload (df s1)) ∈ sink_events W path s1) as H2
    by (apply elem_of_app; left; repeat constructor).
  assert (EPrint (if sheet_accepts W (sheet_payload (df s1)) then SheetUpdated
                  else ErrorUpdatingSheet APIError) ∈ sink_events W path s1) as H3
    by (apply elem_of_app; left; repeat constructor).
  destruct (excel_writable W path); cbn [fst snd]; repeat split; auto.
Qed.

(** C8 at a run whose write-back is rejected. *)
Lemma sink_failures_witness :
  fst (on_process_sheet (L := exact_lib) update_rejected "sheet" "results.xlsx"
         (start ∅)) = StSuccess "results.xlsx".
Proof.
  destruct (sink_failures (L := exact_lib) update_rejected "sheet" "results.xlsx"
              (start ∅) hello_sheet eq_refl eq_refl eq_refl)
    as (payload & _ & _ & _ & _ & H).
  exact H.
Defined.

(** Counterexample to C8 as stated: the write-back fails after all cases
    were processed, and the run does not fail: it returns and the page
    shows success. *)
Lemma rejected_update_reported_as_success :
  sheet_accepts update_rejected
    (sheet_payload (df (snd (on_process_sheet (L := exact_lib) update_rejected
                               "sheet" "results.xlsx" (start ∅))))) = false
  ∧ EPrint (ErrorUpdatingSheet APIError)
    ∈ trace (snd (on_process_sheet (L := exact_lib) update_rejected "sheet"
                    "results.xlsx" (start ∅)))
  ∧ fst (process_google_sheet (L := exact_lib) update_rejected "sheet"
           credentials_path "results.xlsx" (start ∅)) = Ret tt
  ∧ fst (on_process_sheet (L := exact_lib) update_rejected "sheet" "results.xlsx"
           (start ∅)) = StSuccess "results.xlsx".
Proof. repeat split; vm_compute; (reflexivity || set_solver). Qed.

(** * A cell that is not text *)

Lemma process_row_aborts {L : ImageLib} (W : World) (index : nat)
  (row : gmap string cell) (s : State) :
  text_row row = false →
  process_row W index row s = (Raise AttributeError, s).
Proof.
  unfold text_row, input_keys. cbn [forallb]. unfold process_row.
  unfold mbind, M_bind, bind, lift.
  destruct (row_get row "HTML Code"); cbn [is_text cell_strip andb];
    try reflexivity.
  destruct (row_get row "CSS Code"); cbn [is_text cell_strip andb];
    try reflexivity.
  destruct (row_get row "Desktop Reference Image");
    cbn [is_text cell_strip andb]; try reflexivity.
  destruct (row_get row "Mobile Reference Image");
    cbn [is_text cell_strip andb]; try reflexivity.
  discriminate.
Qed.

Lemma for_each_aborts {L : ImageLib} (W : World)
  (l : list (nat * gmap string cell)) (s : State) :
  forallb text_row l.*2 = false →
  fst (for_each l (loop_body W) s) = Raise AttributeError.
Proof.
  revert s. induction l as [|[i row] l IH]; intros s; [discriminate|].
  cbn [fmap list_fmap snd forallb for_each]. unfold bind. cbn [loop_body].
  destruct (text_row row) eqn:Ht.
  - cbn [andb]. intros Hl.
    pose proof (process_row_returns W i row s Ht) as Hr.
    destruct (process_row W i row s) as [r s1]. cbn [fst] in Hr. subst r.
    apply IH. exact Hl.
  - intros _. rewrite (process_row_aborts W i row s Ht). reflexivity.
Qed.

(** A table with an input cell that is not text ends the run with
    [AttributeError]; nothing is written back or exported. *)
Lemma batch_aborts {L : ImageLib} (W : World)
  (sheet_url credentials path : string) (s : State) (data : DataFrame) :
  open_sheet W sheet_url credentials = Ret data →
  forallb text_row (rows data) = false →
  fst (process_google_sheet W sheet_url credentials path s) = Raise AttributeError
  ∧ ∃ evs,
      trace (snd (process_google_sheet W sheet_url credentials path s))
      = trace s ++ evs
      ∧ Forall (λ e, is_sink e = false) evs.
Proof.
  intros Hopen Htext.
  destruct (run_batch W sheet_url credentials path s data Hopen)
    as (s1 & _ & (_ & _ & evs & Ht & Hk & _) & ->).
  rewrite for_each_aborts
    by (rewrite iterrows_rows, prepared_text; exact Htext).
  split; [reflexivity|]. exists evs. split; [exact Ht | exact Hk].
Qed.

(** C4, evaluated where the code breaks it: the first of two rows holds a
    number in its markup cell, the second is well formed. [.strip()] raises
    outside the [try] of the loop body, so the run ends with
    [AttributeError] before anything is done for the second row, before
    the write-back and before the export; the page shows the error. *)
Theorem numeric_cell_aborts_batch :
  text_row hello_row = true
  ∧ rows numeric_sheet !! 1 = Some hello_row
  ∧ fst (run (fair_world numeric_sheet)) = Raise AttributeError
  ∧ trace (snd (run (fair_world numeric_sheet))) = []
  ∧ fst (on_process_sheet (L := exact_lib) (fair_world numeric_sheet) "sheet"
           "results.xlsx" (start ∅)) = StErrorOccurred AttributeError.
Proof. repeat split; vm_compute; reflexivity. Qed.

Lemma lookup_length_eq {A} (l l' : list A) :
  (∀ j, is_Some (l' !! j) ↔ is_Some (l !! j)) → length l' = length l.
Proof.
  intros H. apply Nat.le_antisymm.
  - destruct (decide (length l' ≤ length l)) as [|Hn]; [assumption|].
    assert (is_Some (l' !! length l)) as Hs by (apply lookup_lt_is_Some; lia).
    apply H, lookup_lt_is_Some in Hs. lia.
  - destruct (decide (length l ≤ length l')) as [|Hn]; [assumption|].
    assert (is_Some (l !! length l')) as Hs by (apply lookup_lt_is_Some; lia).
    apply H, lookup_lt_is_Some in Hs. lia.
Qed.

Lemma batch_length (idxs : list nat) (s s' : State) :
  batch idxs s s' → length (rows (df s')) = length (rows (df s)).
Proof.
  intros (_ & _ & evs & _ & _ & _ & Hr). apply lookup_length_eq. intros j.
  destruct (Hr j) as [_ [-> | (_ & _ & dm & mm & ->)]]; [reflexivity|].
  rewrite fmap_is_Some. reflexivity.
Qed.

Lemma ensure_column_length (col : string) (d : DataFrame) :
  length (rows (ensure_column col d)) = length (rows d).
Proof.
  unfold ensure_column. case_bool_decide; [reflexivity|].
  cbn [rows]. apply length_fmap.
Qed.

(** On a table whose input cells all hold text the loop ends, the run
    reaches both sinks, and the table keeps one record per row. *)
Lemma batch_completes {L : ImageLib} (W : World)
  (sheet_url credentials path : string) (s : State) (data : DataFrame) :
  open_sheet W sheet_url credentials = Ret data →
  forallb text_row (rows data) = true →
  fst (process_google_sheet W sheet_url credentials path s)
  = (if excel_writable W path then Ret tt else Raise OSError)
  ∧ length (rows (df (snd (process_google_sheet W sheet_url credentials path s))))
    = length (rows data)
  ∧ ∀ j key, key ≠ desktop_col → key ≠ mobile_col →
      field (snd (process_google_sheet W sheet_url credentials path s)) j key
      = rows data !! j ≫= (λ row, row !! key).
Proof.
  intros Hopen Htext.
  destruct (run_on_text_rows W sheet_url credentials path s data Hopen Htext)
    as (s1 & Hb & ->).
  cbn [fst snd add_events df]. split; [reflexivity|].
  split.
  - rewrite (batch_length _ _ _ Hb). cbn [with_table df]. unfold prepared.
    rewrite !ensure_column_length. reflexivity.
  - intros j key Hd Hm. unfold field. cbn [add_events df].
    destruct Hb as (_ & _ & evs & _ & _ & _ & Hr). cbn [with_table df] in Hr.
    assert (rows (prepared data) !! j ≫= (λ row, row !! key)
            = rows data !! j ≫= (λ row, row !! key)) as Hprep.
    { unfold prepared, ensure_column.
      repeat case_bool_decide; cbn [rows];
        rewrite ?list_lookup_fmap; destruct (rows data !! j) as [r|]; cbn;
        rewrite ?lookup_insert_ne
          by (intros Heq; subst key; first [exact (Hd eq_refl) | exact (Hm eq_refl)]);
        reflexivity. }
    rewrite <- Hprep.
    destruct (Hr j) as [_ [-> | (_ & _ & dm & mm & ->)]]; [reflexivity|].
    destruct (rows (prepared data) !! j) as [r|]; [|reflexivity]. cbn.
    unfold scored_row.
    rewrite !lookup_insert_ne
      by (intros Heq; subst key; first [exact (Hd eq_refl) | exact (Hm eq_refl)]).
    reflexivity.
Qed.


(** * Names in the staging directory *)

Lemma to_uint_not_nil (n : nat) : Nat.to_uint n ≠ Nil.
Proof.
  intros H. pose proof (DecimalNat.Unsigned.of_to n) as Hn. rewrite H in Hn.
  cbn in Hn. subst n. discriminate H.
Qed.

Lemma str_of_index_inj (i j : nat) : str_of_index i = str_of_index j → i = j.
Proof.
  unfold str_of_index. intros H.
  apply DecimalNat.Unsigned.to_uint_inj.
  pose proof (NilZero.usu _ (to_uint_not_nil i)) as Hi.
  pose proof (NilZero.usu _ (to_uint_not_nil j)) as Hj.
  rewrite H in Hi. congruence.
Qed.

Lemma list_ascii_app (s t : string) :
  list_ascii_of_string (s +:+ t) = list_ascii_of_string s ++ list_ascii_of_string t.
Proof.
  induction s as [|c s IH]; [reflexivity|].
  change (String c s +:+ t) with (String c (s +:+ t)). cbn. f_equal. exact IH.
Qed.

Lemma append_assoc (s t u : string) : (s +:+ t) +:+ u = s +:+ t +:+ u.
Proof.
  induction s as [|c s IH]; [reflexivity|].
  change ((String c s +:+ t) +:+ u) with (String c ((s +:+ t) +:+ u)).
  rewrite IH. reflexivity.
Qed.

Lemma append_cancel_r (s s' t : string) : s +:+ t = s' +:+ t → s = s'.
Proof.
  intros H. apply (f_equal list_ascii_of_string) in H.
  rewrite !list_ascii_app in H. apply app_inv_tail in H.
  rewrite <- (string_of_list_ascii_of_string s), H.
  apply string_of_list_ascii_of_string.
Qed.

Ltac same_kind :=
  let H := fresh in
  intros H; cbn in H; injection H as H;
  apply str_of_index_inj; eapply append_cancel_r; exact H.

Ltac other_kind n :=
  let H := fresh in
  intros H; apply (f_equal (String.get n)) in H; cbn in H;
  first [discriminate H | exact (str_of_index_head _ _ H)
        | symmetry in H; exact (str_of_index_head _ _ H)].

Lemma staging_clash (i j : nat) (p : string) :
  p ∈ staging_paths i → p ∈ staging_paths j → i = j.
Proof.
  unfold staging_paths, desktop_screenshot_path, mobile_screenshot_path,
    desktop_ref_path, mobile_ref_path, page_path, style_path, path_join, TEMP_DIR.
  intros Hi Hj.
  repeat (apply elem_of_cons in Hi as [Hi|Hi]); [..|inversion Hi];
    subst p;
    repeat (apply elem_of_cons in Hj as [Hj|Hj]); try (inversion Hj; fail);
    revert Hj;
    first [same_kind
          | intros Hj; exfalso; revert Hj;
            first [other_kind 13 | other_kind 21 | other_kind 20]].
Qed.

Lemma staging_paths_nodup (i : nat) : NoDup (staging_paths i).
Proof.
  unfold staging_paths, desktop_screenshot_path, mobile_screenshot_path,
    desktop_ref_path, mobile_ref_path, page_path, style_path, path_join, TEMP_DIR.
  repeat (apply NoDup_cons; split;
          [intros H; repeat (apply elem_of_cons in H as [H|H]);
           try (inversion H; fail); revert H;
           first [other_kind 13 | other_kind 21 | other_kind 20]|]).
  apply NoDup_nil. constructor.
Qed.

(** X2: the six staging files of a row have six different names, and no
    name is used by two rows: a file of one row is never overwritten by
    another row. *)
Theorem staging_names_do_not_collide (i j : nat) (p : string) :
  NoDup (staging_paths i)
  ∧ (p ∈ staging_paths i → p ∈ staging_paths j → i = j).
Proof. split; [apply staging_paths_nodup | apply staging_clash]. Qed.

Lemma staging_names_do_not_collide_witness : page_path 3 ∉ staging_paths 12.
Proof.
  intros H.
  assert (3 = 12)%nat as E.
  { apply (proj2 (staging_names_do_not_collide 3 12 (page_path 3))); [|exact H].
    vm_compute. apply list_elem_of_here. }
  discriminate E.
Defined.

(** * Files and events of the single steps *)

Lemma emitted_app (s s' : State) (evs : list event) :
  trace s' = trace s ++ evs → emitted s s' = evs.
Proof. intros H. unfold emitted. rewrite H. apply drop_app_length. Qed.

Lemma emitted_add_events (evs : list event) (s : State) :
  emitted s (add_events evs s) = evs.
Proof. apply emitted_app. reflexivity. Qed.

Lemma emitted_add_file_events (evs : list event) (p : string) (c : file) (s : State) :
  emitted s (add_events evs (add_file p c s)) = evs.
Proof. apply emitted_app. reflexivity. Qed.

(** X1: [save_code_to_file] returns the paths of the page and of the
    stylesheet of the row, in that order. Afterwards the first holds the
    document around the markup and the second the stylesheet as given;
    every other file and the table are as before, and the two writes are
    all that happened. The document links, by its name, the stylesheet
    written next to it, and holds the markup unchanged after that link. *)
Theorem save_code_to_file_writes (html_code css_code : string)
  (index : nat) (s : State) :
  fst (save_code_to_file html_code css_code index s)
  = Ret (page_path index, style_path index)
  ∧ fs (snd (save_code_to_file html_code css_code index s)) !! page_path index
    = Some (FData (html_document html_code index))
  ∧ fs (snd (save_code_to_file html_code css_code index s)) !! style_path index
    = Some (FData css_code)
  ∧ (∀ p, p ∉ [page_path index; style_path index] →
          fs (snd (save_code_to_file html_code css_code index s)) !! p = fs s !! p)
  ∧ df (snd (save_code_to_file html_code css_code index s)) = df s
  ∧ emitted s (snd (save_code_to_file html_code css_code index s))
    = [EWriteFile (page_path index); EWriteFile (style_path index)]
  ∧ ∃ name pre mid post,
      style_path index = path_join TEMP_DIR name
      ∧ html_document html_code index
        = pre +:+ "href=" +:+ dq +:+ name +:+ dq +:+ mid +:+ html_code +:+ post.
Proof.
  rewrite save_code_to_file_run. cbv zeta.
  fold (page_path index) (style_path index). cbn [fst snd].
  assert (style_path index ≠ page_path index) as Hne.
  { intros H. pose proof (staging_paths_nodup index) as Hnd.
    unfold staging_paths in Hnd. apply NoDup_cons in Hnd as [Hnd _].
    apply Hnd. rewrite <- H. apply list_elem_of_here. }
  split; [reflexivity|]. cbn [add_events add_file fs df].
  split; [rewrite lookup_insert_ne by exact Hne; apply lookup_insert_eq|].
  split; [apply lookup_insert_eq|]. split; [|split; [reflexivity|split]].
  - intros p Hp. rewrite !lookup_insert_ne; [reflexivity|..];
      intros Heq; apply Hp; subst p; repeat constructor.
  - apply emitted_app. reflexivity.
  - exists ("style_" +:+ str_of_index index +:+ ".css"),
      (nl +:+ "        <!DOCTYPE html>"
       +:+ nl +:+ "        <html lang=" +:+ dq +:+ "en" +:+ dq +:+ ">"
       +:+ nl +:+ "        <head>"
       +:+ nl +:+ "            <meta charset=" +:+ dq +:+ "UTF-8" +:+ dq +:+ ">"
       +:+ nl +:+ "            <meta name=" +:+ dq +:+ "viewport" +:+ dq +:+ " content="
       +:+ dq +:+ "width=device-width, initial-scale=1.0" +:+ dq +:+ ">"
       +:+ nl +:+ "            <title>Test Page</title>"
       +:+ nl +:+ "            <link rel=" +:+ dq +:+ "stylesheet" +:+ dq +:+ " "),
      (">" +:+ nl +:+ "        </head>"
       +:+ nl +:+ "        <body>"
       +:+ nl +:+ "        "),
      (nl +:+ "        </body>"
       +:+ nl +:+ "        </html>"
       +:+ nl +:+ "        ").
    split; [reflexivity|]. rewrite !append_assoc. reflexivity.
Qed.

Lemma save_code_to_file_writes_witness :
  fs (snd (save_code_to_file "<p>hi</p>" "p{}" 4
             (start {[ "notes.txt" := FData "keep" ]}))) !! "notes.txt"
  = Some (FData "keep").
Proof.
  rewrite (proj1 (proj2 (proj2 (proj2
             (save_code_to_file_writes "<p>hi</p>" "p{}" 4
                (start {[ "notes.txt" := FData "keep" ]})))))).
  - reflexivity.
  - vm_compute. intros H. repeat (inversion H as [|? ? ? H']; clear H; rename H' into H).
Defined.


(** X4: [capture_screenshot_from_file] raises only when the browser
    fails to start; a failure of any later step is caught. The output file
    is written exactly when the session gets through, and it then holds
    the picture taken; otherwise every file is as before. The table is as
    before, and the success message is printed exactly when the session
    gets through. *)
Theorem capture_outcome (W : World) (html_file output_file : string)
  (vp : Viewport) (s : State) :
  fst (capture_screenshot_from_file W html_file output_file vp s)
  = match chrome W html_file vp with
    | StartFails => Raise WebDriverException
    | _ => Ret tt
    end
  ∧ fs (snd (capture_screenshot_from_file W html_file output_file vp s))
    = match chrome W html_file vp with
      | Captured _ shot => <[output_file := shot]> (fs s)
      | _ => fs s
      end
  ∧ df (snd (capture_screenshot_from_file W html_file output_file vp s)) = df s
  ∧ (EPrint (ScreenshotSaved output_file)
      ∈ emitted s (snd (capture_screenshot_from_file W html_file output_file vp s))
     ↔ ∃ h shot, chrome W html_file vp = Captured h shot).
Proof.
  rewrite capture_run. cbv zeta.
  destruct (chrome W html_file vp) eqn:E; cbn [fst snd];
    rewrite ?emitted_add_events, ?emitted_add_file_events;
    (split; [reflexivity|]); (split; [reflexivity|]); (split; [reflexivity|]);
    cbn [app]; (split; [intros H | intros (h0 & shot0 & H)]);
    try discriminate H; eauto;
    try (repeat (apply elem_of_cons in H as [H|H]; [discriminate H|]); inversion H).
  repeat (first [apply list_elem_of_here | apply list_elem_of_further]).
Qed.

Lemma capture_outcome_witness :
  EPrint (ScreenshotSaved "shot.png")
  ∈ emitted (start ∅)
      (snd (capture_screenshot_from_file short_page "page.html" "shot.png"
              desktop_viewport (start ∅))).
Proof.
  apply (proj2 (proj2 (proj2 (capture_outcome short_page "page.html" "shot.png"
                                desktop_viewport (start ∅))))).
  eexists _, _. reflexivity.
Defined.

(** * What a row does *)

Lemma effects_refl (index : nat) (s : State) : effects index [] [] [] s s.
Proof.
  split; [reflexivity|]. split; [reflexivity|]. split; [auto|].
  exists []. rewrite app_nil_r. auto.
Qed.

Lemma effects_step (index : nat) (f1 f2 f : list nat) (r1 r2 r : list string)
  (t1 t2 t : list Viewport) (s s1 s2 : State) :
  effects index f1 r1 t1 s s1 → effects index f2 r2 t2 s1 s2 →
  f1 ++ f2 = f → r1 ++ r2 = r → t1 ++ t2 = t → effects index f r t s s2.
Proof.
  intros (D1 & F1 & K1 & evs1 & T1 & <- & <- & <-)
         (D2 & F2 & K2 & evs2 & T2 & <- & <- & <-) <- <- <-.
  split; [congruence|].
  split; [intros p Hp; rewrite F2, F1 by exact Hp; reflexivity|].
  split; [auto|].
  exists (evs1 ++ evs2). unfold failures, requests, starts.
  rewrite !omap_app, T2, T1, app_assoc. auto.
Qed.

Lemma effects_add_events (index : nat) (evs : list event) (s : State) :
  effects index (failures evs) (requests evs) (starts evs) s (add_events evs s).
Proof.
  split; [reflexivity|]. split; [reflexivity|]. split; [auto|].
  exists evs. auto.
Qed.

Lemma effects_add_file (index : nat) (path : string) (c : file) (s : State) :
  path ∈ staging_paths index → effects index [] [] [] s (add_file path c s).
Proof.
  intros Hin. split; [reflexivity|]. split; [|split].
  - intros p Hp. cbn. apply lookup_insert_ne. intros ->. exact (Hp Hin).
  - intros p Hp. cbn. destruct (decide (path = p)) as [->|Hne].
    + rewrite lookup_insert_eq. eauto.
    + rewrite lookup_insert_ne by exact Hne. exact Hp.
  - exists []. cbn. rewrite app_nil_r. auto.
Qed.

Lemma effects_flag (index : nat) (m : message) (s : State) :
  failure_index (EPrint m) = Some index →
  effects index [index] [] [] s (snd (emit (EPrint m) s)).
Proof.
  intros Hm. change (snd (emit (EPrint m) s)) with (add_events [EPrint m] s).
  pose proof (effects_add_events index [EPrint m] s) as H.
  unfold failures in H. cbn [omap list_omap] in H. rewrite Hm in H. exact H.
Qed.

Ltac staged := unfold staging_paths; repeat first [apply list_elem_of_here | apply list_elem_of_further].

Section Account.

Context {L : ImageLib} (W : World).

Lemma save_code_to_file_effects (index : nat) (html_code css_code : string)
  (s : State) :
  effects index [] [] [] s (snd (save_code_to_file html_code css_code index s)).
Proof.
  rewrite save_code_to_file_run. cbv zeta. cbn [snd].
  eapply effects_step;
    [eapply effects_step; [apply effects_add_file | apply effects_add_file | ..]
    | apply effects_add_events | ..]; try reflexivity.
  - apply (list_elem_of_here (page_path index)).
  - apply list_elem_of_further, (list_elem_of_here (style_path index)).
Qed.

Lemma download_image_effects (index : nat) (url output_path : string) (s : State) :
  output_path ∈ staging_paths index →
  fst (download_image W url output_path s) = Ret (download_ok W url)
  ∧ effects index [] [url] [] s (snd (download_image W url output_path s)).
Proof.
  intros Hin. rewrite download_image_run. unfold download_ok.
  destruct (requests_get W url) as [code content|].
  - destruct (code =? 200)%nat; cbn [fst snd]; (split; [reflexivity|]).
    + eapply effects_step;
        [apply effects_add_file; exact Hin | apply effects_add_events | ..];
        reflexivity.
    + apply (effects_add_events index).
  - cbn [fst snd]. split; [reflexivity|]. apply (effects_add_events index).
Qed.

Lemma capture_effects (index : nat) (html_file output_file : string)
  (vp : Viewport) (s : State) :
  output_file ∈ staging_paths index →
  effects index [] [] [vp] s
    (snd (capture_screenshot_from_file W html_file output_file vp s)).
Proof.
  intros Hin. rewrite capture_run. cbv zeta.
  destruct (chrome W html_file vp); cbn [snd];
    try apply (effects_add_events index).
  eapply effects_step;
    [apply effects_add_file; exact Hin | apply effects_add_events | ..];
    reflexivity.
Qed.

Lemma pixel_match_effects (index : nat) (reference_path test_path : string)
  (s : State) :
  effects index [] [] [] s (snd (pixel_match reference_path test_path s)).
Proof.
  rewrite pixel_match_run.
  destruct (loaded s reference_path) as [r|].
  - destruct (loaded s test_path) as [t|].
    + destruct (sk_ssim _ _); cbn [snd]; [|apply effects_refl].
      apply (effects_add_events index).
    + apply (effects_add_events index).
  - apply (effects_add_events index).
Qed.

Lemma text_row_cells (row : gmap string cell) :
  text_row row = true →
  ∃ html css durl murl,
    cell_strip (row_get row "HTML Code") = Ret html
    ∧ cell_strip (row_get row "CSS Code") = Ret css
    ∧ cell_strip (row_get row "Desktop Reference Image") = Ret durl
    ∧ cell_strip (row_get row "Mobile Reference Image") = Ret murl.
Proof.
  unfold text_row, input_keys. cbn [forallb]. intros H.
  repeat (apply andb_prop in H as [? H]).
  repeat match goal with
         | Hc : is_text ?c = true |- _ => destruct c; try discriminate Hc; clear Hc
         end.
  cbn. eauto 10.
Qed.

Lemma process_row_account (index : nat) (row : gmap string cell) (s : State)
  (html css durl murl : string) :
  cell_strip (row_get row "HTML Code") = Ret html →
  cell_strip (row_get row "CSS Code") = Ret css →
  cell_strip (row_get row "Desktop Reference Image") = Ret durl →
  cell_strip (row_get row "Mobile Reference Image") = Ret murl →
  fst (process_row W index row s) = Ret tt
  ∧ row_account W index html css durl murl s (snd (process_row W index row s)).
Proof.
  intros E1 E2 E3 E4.
  unfold process_row. munfold. rewrite E1, E2, E3, E4.
  destruct (is_empty html || is_empty css) eqn:V1.
  { split; [reflexivity|]. apply AccountSkipped; [rewrite V1; reflexivity|].
    apply effects_flag. reflexivity. }
  destruct (is_empty durl || is_empty murl) eqn:V2.
  { split; [reflexivity|]. apply AccountSkipped; [rewrite V1, V2; reflexivity|].
    apply effects_flag. reflexivity. }
  assert ((is_empty html || is_empty css) || (is_empty durl || is_empty murl) = false)
    as V by (rewrite V1, V2; reflexivity).
  pose proof (save_code_to_file_effects index html css s) as P0.
  rewrite save_code_to_file_run in *. cbv beta iota zeta in *. cbn [snd] in P0.
  set (s0 := add_events _ _) in *.
  set (html_file := path_join TEMP_DIR ("page_" +:+ str_of_index index +:+ ".html")).
  destruct (download_image_effects index durl (desktop_ref_path index) s0)
    as (D1 & P1); [staged|].
  destruct (download_image W durl (desktop_ref_path index) s0) as [r1 s1].
  cbn [fst snd] in D1, P1. subst r1.
  pose proof (effects_step _ _ _ _ _ _ _ _ _ _ _ _ _ P0 P1 eq_refl eq_refl eq_refl)
    as Q1. cbn [app] in Q1.
  destruct (download_ok W durl) eqn:Ok1; cbn [negb].
  2:{ split; [reflexivity|]. apply AccountUnfetched; [exact V | |].
      - rewrite Ok1. reflexivity.
      - rewrite Ok1.
        eapply effects_step; [exact Q1 | apply effects_flag | ..]; reflexivity. }
  destruct (download_image_effects index murl (mobile_ref_path index) s1)
    as (D2 & P2); [staged|].
  destruct (download_image W murl (mobile_ref_path index) s1) as [r2 s2].
  cbn [fst snd] in D2, P2. subst r2.
  pose proof (effects_step _ _ _ _ _ _ _ _ _ _ _ _ _ Q1 P2 eq_refl eq_refl eq_refl)
    as Q2. cbn [app] in Q2.
  destruct (download_ok W murl) eqn:Ok2; cbn [negb].
  2:{ split; [reflexivity|]. apply AccountUnfetched; [exact V | |].
      - rewrite Ok1, Ok2. reflexivity.
      - rewrite Ok1.
        eapply effects_step; [exact Q2 | apply effects_flag | ..]; reflexivity. }
  assert (download_ok W durl && download_ok W murl = true) as Hok
    by (rewrite Ok1, Ok2; reflexivity).
  pose proof (capture_effects index html_file (desktop_screenshot_path index)
                desktop_viewport s2 ltac:(staged)) as P3.
  destruct (capture_screenshot_from_file W html_file _ desktop_viewport s2)
    as [r3 s3].
  cbn [snd] in P3.
  pose proof (effects_step _ _ _ _ _ _ _ _ _ _ _ _ _ Q2 P3 eq_refl eq_refl eq_refl)
    as Q3. cbn [app] in Q3.
  destruct r3 as [[]|e].
  2:{ split; [reflexivity|].
      apply (AccountFailed _ _ _ _ _ _ _ [desktop_viewport]); auto.
      eapply effects_step; [exact Q3 | apply effects_flag | ..]; reflexivity. }
  pose proof (capture_effects index html_file (mobile_screenshot_path index)
                mobile_viewport s3 ltac:(staged)) as P4.
  destruct (capture_screenshot_from_file W html_file _ mobile_viewport s3)
    as [r4 s4].
  cbn [snd] in P4.
  pose proof (effects_step _ _ _ _ _ _ _ _ _ _ _ _ _ Q3 P4 eq_refl eq_refl eq_refl)
    as Q4. cbn [app] in Q4.
  destruct r4 as [[]|e].
  2:{ split; [reflexivity|].
      apply (AccountFailed _ _ _ _ _ _ _ [desktop_viewport; mobile_viewport]); auto.
      eapply effects_step; [exact Q4 | apply effects_flag | ..]; reflexivity. }
  pose proof (pixel_match_effects index (desktop_ref_path index)
                (desktop_screenshot_path index) s4) as P5.
  destruct (pixel_match (desktop_ref_path index) (desktop_screenshot_path index) s4)
    as [r5 s5] eqn:M5.
  cbn [snd] in P5.
  pose proof (effects_step _ _ _ _ _ _ _ _ _ _ _ _ _ Q4 P5 eq_refl eq_refl eq_refl)
    as Q5. cbn [app] in Q5.
  destruct r5 as [dm|e].
  2:{ split; [reflexivity|].
      apply (AccountFailed _ _ _ _ _ _ _ [desktop_viewport; mobile_viewport]); auto.
      eapply effects_step; [exact Q5 | apply effects_flag | ..]; reflexivity. }
  pose proof (pixel_match_effects index (mobile_ref_path index)
                (mobile_screenshot_path index) s5) as P6.
  destruct (pixel_match (mobile_ref_path index) (mobile_screenshot_path index) s5)
    as [r6 s6] eqn:M6.
  cbn [snd] in P6.
  pose proof (effects_step _ _ _ _ _ _ _ _ _ _ _ _ _ Q5 P6 eq_refl eq_refl eq_refl)
    as Q6. cbn [app] in Q6.
  destruct r6 as [mm|e].
  2:{ split; [reflexivity|].
      apply (AccountFailed _ _ _ _ _ _ _ [desktop_viewport; mobile_viewport]); auto.
      eapply effects_step; [exact Q6 | apply effects_flag | ..]; reflexivity. }
  cbn [fst snd]. split; [reflexivity|].
  apply (AccountScored W index html css durl murl s s4 s5 s6 dm mm V Hok Q6).
  - rewrite M5. reflexivity.
  - rewrite M6. reflexivity.
Qed.

End Account.

(** * What a batch does *)

Lemma failures_app (a b : list event) : failures (a ++ b) = failures a ++ failures b.
Proof. apply omap_app. Qed.

Lemma requests_app (a b : list event) : requests (a ++ b) = requests a ++ requests b.
Proof. apply omap_app. Qed.

Lemma settled_same (j : nat) (evs evs' : list event)
  (old new : option (gmap string cell)) :
  (j ∈ failures evs ↔ j ∈ failures evs') →
  settled j evs old new → settled j evs' old new.
Proof.
  intros Hiff [[Hin ->] | [Hnin Hs]].
  - left. split; [apply Hiff; exact Hin | reflexivity].
  - right. split; [intros Hin; apply Hnin, Hiff; exact Hin | exact Hs].
Qed.

Lemma accounted_refl (s : State) : accounted [] s s.
Proof.
  split; [reflexivity|]. split; [reflexivity|]. split; [auto|].
  exists []. rewrite app_nil_r. split; [reflexivity|].
  split; [apply sublist_nil_l|]. split; [cbn; lia|]. split; [cbn; lia|].
  intros j. split; [reflexivity|]. intros Hj. inversion Hj.
Qed.

Lemma accounted_flagged (index : nat) (rq : list string) (sts : list Viewport)
  (s s' : State) :
  effects index [index] rq sts s s' → length rq ≤ 2 → length sts ≤ 2 →
  accounted [index] s s'.
Proof.
  intros (Hdf & Hfs & Hkeep & evs & Ht & Hf & Hr & Hs) Hrq Hsts.
  split; [rewrite Hdf; reflexivity|].
  split; [intros p Hp; apply Hfs, Hp, list_elem_of_here|].
  split; [exact Hkeep|].
  exists evs. split; [exact Ht|]. rewrite Hf, Hr, Hs.
  split; [reflexivity|]. split; [cbn; lia|]. split; [cbn; lia|].
  intros j. rewrite Hdf. split; [reflexivity|].
  intros Hj. apply list_elem_of_singleton in Hj as ->.
  left. split; [rewrite Hf; apply list_elem_of_here | reflexivity].
Qed.

Lemma accounted_cons (i : nat) (idxs : list nat) (s s1 s2 : State) :
  i ∉ idxs → accounted [i] s s1 → accounted idxs s1 s2 →
  accounted (i :: idxs) s s2.
Proof.
  intros Hi (C1 & F1 & K1 & evs1 & T1 & S1 & Q1 & B1 & R1)
            (C2 & F2 & K2 & evs2 & T2 & S2 & Q2 & B2 & R2).
  split; [congruence|].
  split.
  { intros p Hp. rewrite F2, F1; [reflexivity | |].
    - intros k Hk. apply list_elem_of_singleton in Hk as ->.
      apply Hp, list_elem_of_here.
    - intros k Hk. apply Hp, list_elem_of_further, Hk. }
  split; [auto|].
  exists (evs1 ++ evs2). split; [rewrite T2, T1, app_assoc; reflexivity|].
  rewrite failures_app, requests_app, starts_app, !length_app.
  split; [change (i :: idxs) with ([i] ++ idxs); apply sublist_app; assumption|].
  split; [cbn [length] in *; lia|]. split; [cbn [length] in *; lia|].
  assert (∀ j, j ∈ failures evs1 → j = i) as Hone.
  { intros j Hj. apply (sublist_subseteq _ _ S1), list_elem_of_singleton in Hj.
    exact Hj. }
  assert (∀ j, j ∈ failures evs2 → j ∈ idxs) as Hrest
    by (intros j; apply (sublist_subseteq _ _ S2)).
  intros j. split.
  - intros Hj. rewrite (proj1 (R2 j)), (proj1 (R1 j)); [reflexivity | |].
    + intros Hji. apply Hj. apply list_elem_of_singleton in Hji as ->.
      apply list_elem_of_here.
    + intros Hji. apply Hj, list_elem_of_further, Hji.
  - intros Hj. apply elem_of_cons in Hj as [-> | Hj].
    + rewrite (proj1 (R2 i)) by exact Hi.
      apply (settled_same i evs1); [|apply R1, list_elem_of_here].
      rewrite failures_app, elem_of_app. split; [auto|].
      intros [H|H]; [exact H | destruct (Hi (Hrest _ H))].
    + assert (j ≠ i) as Hne by (intros ->; exact (Hi Hj)).
      rewrite <- (proj1 (R1 j))
        by (intros H; apply list_elem_of_singleton in H; exact (Hne H)).
      apply (settled_same j evs2); [|apply R2, Hj].
      rewrite failures_app, elem_of_app. split; [auto|].
      intros [H|H]; [destruct (Hne (Hone _ H)) | exact H].
Qed.

Section Tally.

Context {L : ImageLib} (HL : ImageLibOk L) (W : World).

Lemma accounted_row (index : nat) (html css durl murl : string) (s s' : State) :
  row_account W index html css durl murl s s' → accounted [index] s s'.
Proof.
  intros [s1 _ He | s1 _ _ He | sts s1 _ _ Hsts He | sa sb s1 dm mm _ _ He Hd Hm].
  - apply (accounted_flagged _ _ _ _ _ He); cbn; lia.
  - apply (accounted_flagged _ _ _ _ _ He); destruct (download_ok W durl); cbn; lia.
  - apply (accounted_flagged _ _ _ _ _ He); [cbn; lia|].
    destruct Hsts as [-> | ->]; cbn; lia.
  - destruct He as (Hdf & Hfs & Hkeep & evs & Ht & Hf & Hr & Hs).
    split; [cbn; rewrite Hdf; reflexivity|].
    split; [intros p Hp; apply Hfs, Hp, list_elem_of_here|].
    split; [exact Hkeep|].
    exists evs. split; [exact Ht|]. rewrite Hf, Hr, Hs.
    split; [apply sublist_nil_l|]. split; [cbn; lia|]. split; [cbn; lia|].
    intros j. split.
    + intros Hj. rewrite record_scores_lookup_ne, Hdf; [reflexivity|].
      intros ->. apply Hj, list_elem_of_here.
    + intros Hj. apply list_elem_of_singleton in Hj as ->.
      right. split; [rewrite Hf; apply not_elem_of_nil|].
      exists dm, mm.
      split; [exact (pixel_match_score HL _ _ _ _ Hd)|].
      split; [exact (pixel_match_score HL _ _ _ _ Hm)|].
      rewrite record_scores_lookup, Hdf. reflexivity.
Qed.

(** The loop goes through the rows before the first one with a cell that
    is not text, and stops there. *)
Lemma for_each_account (l : list (nat * gmap string cell)) (s : State) :
  NoDup l.*1 →
  ∃ k, accounted (take k l.*1) s (snd (for_each l (loop_body W) s))
       ∧ forallb text_row (take k l.*2) = true
       ∧ match l.*2 !! k with
         | Some row => text_row row = false
                       ∧ fst (for_each l (loop_body W) s) = Raise AttributeError
         | None => fst (for_each l (loop_body W) s) = Ret tt
         end.
Proof.
  revert s. induction l as [|[i row] l IH]; intros s Hnd.
  - exists 0. split; [apply accounted_refl|]. split; reflexivity.
  - cbn [fmap list_fmap fst snd] in *. apply NoDup_cons in Hnd as [Hi Hnd].
    cbn [for_each]. unfold bind. cbn [loop_body].
    destruct (text_row row) eqn:Ht.
    + destruct (text_row_cells row Ht)
        as (html & css & durl & murl & E1 & E2 & E3 & E4).
      destruct (process_row_account W i row s html css durl murl E1 E2 E3 E4)
        as [Hr Ha].
      destruct (process_row W i row s) as [r s1]. cbn [fst snd] in Hr, Ha. subst r.
      destruct (IH s1 Hnd) as (k & Hk & Hall & Hend).
      exists (S k). cbn [take lookup list_lookup forallb]. rewrite Ht, Hall.
      split; [|split; [reflexivity | exact Hend]].
      eapply accounted_cons; [|apply (accounted_row _ _ _ _ _ _ _ Ha) | exact Hk].
      intros Hin. apply Hi. eapply (sublist_subseteq _ _ (sublist_take _ _)), Hin.
    + exists 0. rewrite (process_row_aborts W i row s Ht).
      cbn [take lookup list_lookup forallb fst snd].
      split; [apply accounted_refl|]. split; [reflexivity|]. split; [exact Ht|reflexivity].
Qed.

End Tally.

(** * The run as a whole *)


(** Preparing the table maps every row to one with the same input cells. *)
Lemma prepared_rows (data : DataFrame) :
  ∃ f : gmap string cell → gmap string cell,
    rows (prepared data) = f <$> rows data
    ∧ ∀ r, text_row (f r) = text_row r
           ∧ ∀ key, key ≠ desktop_col → key ≠ mobile_col → f r !! key = r !! key.
Proof.
  destruct match_columns_not_input as [Hd Hm].
  unfold prepared, ensure_column.
  repeat case_bool_decide; cbn [rows columns];
    first
      [ exists id; split; [symmetry; apply list_fmap_id|];
        intros r; split; reflexivity
      | exists (λ r, <[mobile_col := CNone]> r); split; [reflexivity|];
        intros r; split; [apply text_row_insert, Hm|];
        intros key _ Hk; apply lookup_insert_ne; congruence
      | exists (λ r, <[desktop_col := CNone]> r); split; [reflexivity|];
        intros r; split; [apply text_row_insert, Hd|];
        intros key Hk _; apply lookup_insert_ne; congruence
      | exists (λ r, <[mobile_col := CNone]> (<[desktop_col := CNone]> r));
        split; [rewrite <- list_fmap_compose; reflexivity|];
        intros r; split; [rewrite !text_row_insert by assumption; reflexivity|];
        intros key Hk1 Hk2; rewrite !lookup_insert_ne by congruence; reflexivity ].
Qed.

Lemma prepared_length (data : DataFrame) :
  length (rows (prepared data)) = length (rows data).
Proof. unfold prepared. rewrite !ensure_column_length. reflexivity. Qed.


Lemma forallb_fmap_take {A B} (P : B → bool) (Q : A → bool) (f : A → B)
  (l : list A) (k : nat) :
  (∀ x, P (f x) = Q x) →
  forallb P (take k (f <$> l)) = forallb Q (take k l).
Proof.
  intros Hf. rewrite <- fmap_take.
  induction (take k l) as [|x l' IH]; [reflexivity|].
  cbn. rewrite Hf, IH. reflexivity.
Qed.

Section Run.

Context {L : ImageLib} (HL : ImageLibOk L) (W : World).

(** The loop over the table read: where it stops and what it leaves. *)
Lemma loop_account (data : DataFrame) (s : State) :
  let l := iterrows (prepared data) in
  let s0 := with_table (prepared data) s in
  ∃ k, k ≤ length (rows data)
       ∧ accounted (seq 0 k) s0 (snd (for_each l (loop_body W) s0))
       ∧ forallb text_row (take k (rows data)) = true
       ∧ match rows data !! k with
         | Some row => text_row row = false
                       ∧ fst (for_each l (loop_body W) s0) = Raise AttributeError
         | None => k = length (rows data)
                   ∧ fst (for_each l (loop_body W) s0) = Ret tt
         end.
Proof.
  cbv zeta.
  destruct (for_each_account HL W (iterrows (prepared data))
              (with_table (prepared data) s)) as (k & Ha & Hall & Hend).
  { rewrite iterrows_indices. apply NoDup_seq. }
  rewrite iterrows_indices, prepared_length in Ha.
  rewrite iterrows_rows in Hall, Hend.
  destruct (prepared_rows data) as (f & Hf & Hrow).
  rewrite Hf in Hall, Hend.
  rewrite (forallb_fmap_take text_row text_row f) in Hall by (intros x; apply Hrow).
  rewrite list_lookup_fmap in Hend.
  destruct (rows data !! k) as [row|] eqn:Hk; cbn [fmap option_fmap option_map] in Hend.
  - exists k. apply lookup_lt_Some in Hk as Hlt.
    rewrite take_seq in Ha. rewrite Nat.min_l in Ha by lia.
    split; [lia|]. split; [exact Ha|]. split; [exact Hall|].
    destruct Hend as [Ht Hr]. rewrite (proj1 (Hrow row)) in Ht.
    rewrite Hk. auto.
  - apply lookup_ge_None in Hk as Hge.
    exists (length (rows data)). rewrite take_seq in Ha.
    rewrite Nat.min_r in Ha by lia.
    split; [lia|]. split; [exact Ha|].
    rewrite take_ge in Hall by lia. rewrite firstn_all.
    split; [exact Hall|].
    rewrite (proj2 (lookup_ge_None _ _)) by lia. auto.
Qed.


(** A run on a table that was read, in terms of the loop. *)
Lemma run_account (sheet_url credentials path : string) (s : State)
  (data : DataFrame) :
  open_sheet W sheet_url credentials = Ret data →
  ∃ k s1,
    k ≤ length (rows data)
    ∧ accounted (seq 0 k) (with_table (prepared data) s) s1
    ∧ batch (seq 0 (length (rows (prepared data)))) (with_table (prepared data) s) s1
    ∧ forallb text_row (take k (rows data)) = true
    ∧ match rows data !! k with
      | Some row =>
          text_row row = false
          ∧ process_google_sheet W sheet_url credentials path s
            = (Raise AttributeError, s1)
      | None =>
          k = length (rows data)
          ∧ process_google_sheet W sheet_url credentials path s
            = (if excel_writable W path then Ret tt else Raise OSError,
               add_events (sink_events W path s1) s1)
      end.
Proof.
  intros Hopen.
  destruct (loop_account data s) as (k & Hk & Ha & Hall & Hend).
  destruct (run_batch W sheet_url credentials path s data Hopen)
    as (s1 & Hs1 & Hb & Hrun).
  rewrite Hs1 in Ha, Hend. cbn [fst snd] in Ha, Hend.
  exists k, s1. split; [exact Hk|]. split; [exact Ha|]. split; [exact Hb|].
  split; [exact Hall|].
  rewrite Hrun, Hs1. cbn [fst].
  destruct (rows data !! k) as [row|]; destruct Hend as [H1 H2]; rewrite H2.
  - auto.
  - split; [exact H1|]. apply persisted_run.
Qed.

End Run.





(** X13: a run writes no file other than the staging files of the rows of
    the table it read and the export, and removes none. *)
Theorem run_touches_only_staging_files {L : ImageLib} (HL : ImageLibOk L) (W : World)
  (sheet_url credentials path : string) (s : State) (data : DataFrame) :
  open_sheet W sheet_url credentials = Ret data →
  (∀ p, p ≠ path →
        (∀ i, i < length (rows data) → p ∉ staging_paths i) →
        fs (snd (process_google_sheet W sheet_url credentials path s)) !! p
        = fs s !! p)
  ∧ (∀ p, is_Some (fs s !! p) →
          is_Some (fs (snd (process_google_sheet W sheet_url credentials path s))
                   !! p)).
Proof.
  intros Hopen.
  destruct (run_account HL W sheet_url credentials path s data Hopen)
    as (k & s1 & Hk & Ha & _ & _ & Hend).
  destruct Ha as (_ & Hframe & Hkeep & _). cbn [with_table fs] in Hframe, Hkeep.
  assert (fs (snd (process_google_sheet W sheet_url credentials path s)) = fs s1)
    as ->.
  { destruct (rows data !! k); destruct Hend as [_ ->]; reflexivity. }
  split; [|exact Hkeep].
  intros p _ Hp. apply Hframe. intros i Hi. apply Hp.
  apply elem_of_seq in Hi. lia.
Qed.

Lemma run_touches_only_staging_files_witness :
  fs (snd (process_google_sheet (L := exact_lib) (fair_world hello_sheet) "sheet"
             "key.json" "results.xlsx"
             (start {[ "./temp_files/page_7.html" := FData "old" ]})))
    !! "./temp_files/page_7.html" = Some (FData "old").
Proof.
  rewrite (proj1 (run_touches_only_staging_files exact_lib_ok (fair_world hello_sheet)
                    "sheet" "key.json" "results.xlsx"
                    (start {[ "./temp_files/page_7.html" := FData "old" ]})
                    hello_sheet eq_refl)).
  - reflexivity.
  - discriminate.
  - intros i Hi. cbn in Hi. assert (i = 0) as -> by lia.
    vm_compute. intros H. repeat (inversion H as [|? ? ? H']; clear H; rename H' into H).
Defined.

(** X14: whatever happens to the rows, a run keeps the rows and the columns
    of the table it read, the two match columns being added when missing,
    and changes no cell outside the two match columns. *)
Theorem input_cells_preserved {L : ImageLib} (W : World)
  (sheet_url credentials path : string) (s : State) (data : DataFrame) :
  open_sheet W sheet_url credentials = Ret data →
  columns (df (snd (process_google_sheet W sheet_url credentials path s)))
  = columns (prepared data)
  ∧ length (rows (df (snd (process_google_sheet W sheet_url credentials path s))))
    = length (rows data)
  ∧ ∀ j key, key ≠ desktop_col → key ≠ mobile_col →
      field (snd (process_google_sheet W sheet_url credentials path s)) j key
      = rows data !! j ≫= (λ row, row !! key).
Proof.
  intros Hopen.
  destruct (run_batch W sheet_url credentials path s data Hopen)
    as (s1 & _ & Hb & ->).
  assert (df (snd (match fst (for_each (iterrows (prepared data)) (loop_body W)
                                (with_table (prepared data) s)) with
                   | Ret _ => persisted W path s1
                   | Raise e => (Raise e, s1)
                   end)) = df s1) as Hdf.
  { destruct (fst _) as [[]|e]; [rewrite persisted_run|]; reflexivity. }
  unfold field. rewrite Hdf.
  split; [apply Hb|].
  split; [rewrite (batch_length _ _ _ Hb); apply prepared_length|].
  intros j key Hd Hm.
  destruct Hb as (_ & _ & evs & _ & _ & _ & Hr). cbn [with_table df] in Hr.
  destruct (prepared_rows data) as (f & Hf & Hrow).
  assert (rows (prepared data) !! j ≫= (λ row, row !! key)
          = rows data !! j ≫= (λ row, row !! key)) as Hprep.
  { rewrite Hf, list_lookup_fmap. destruct (rows data !! j) as [r|]; [|reflexivity].
    cbn. apply Hrow; assumption. }
  rewrite <- Hprep.
  destruct (Hr j) as [_ [-> | (_ & _ & dm & mm & ->)]]; [reflexivity|].
  destruct (rows (prepared data) !! j) as [r|]; [|reflexivity]. cbn.
  unfold scored_row.
  rewrite !lookup_insert_ne
    by (intros Heq; subst key; first [exact (Hd eq_refl) | exact (Hm eq_refl)]).
  reflexivity.
Qed.

Lemma input_cells_preserved_witness :
  field (snd (run desktop_load_fails)) 0 "CSS Code" = Some (CStr "div{color:red}").
Proof.
  unfold run.
  rewrite (proj2 (proj2 (input_cells_preserved (L := exact_lib) desktop_load_fails
                           "sheet" "key.json" "results.xlsx" (start ∅) hello_sheet
                           eq_refl))) by discriminate.
  reflexivity.
Defined.

(** X17: what the page shows after [Process Sheet]: the missing-input error
    exactly when the address of the sheet is empty; otherwise the
    exception of the run when opening the sheet raises, [AttributeError]
    when an input cell is not text, [OSError] when the export fails, and
    success in every other case. With an empty address or a sheet that
    cannot be opened nothing else is done. *)
Theorem page_message {L : ImageLib} (W : World) (sheet_url path : string)
  (s : State) :
  fst (on_process_sheet W sheet_url path s)
  = (if is_empty sheet_url then StErrorMissingInput
     else match open_sheet W sheet_url credentials_path with
          | Raise e => StErrorOccurred e
          | Ret data =>
              if forallb text_row (rows data)
              then if excel_writable W path then StSuccess path
                   else StErrorOccurred OSError
              else StErrorOccurred AttributeError
          end)
  ∧ (is_empty sheet_url = true
     ∨ (∃ e, open_sheet W sheet_url credentials_path = Raise e) →
     snd (on_process_sheet W sheet_url path s) = s).
Proof.
  unfold on_process_sheet.
  change (is_empty credentials_path) with false. rewrite orb_false_r.
  destruct (is_empty sheet_url); [split; reflexivity|].
  destruct (open_sheet W sheet_url credentials_path) as [data|e] eqn:Hopen.
  - split; [|intros [[=] | [e [=]]]].
    destruct (forallb text_row (rows data)) eqn:Htext.
    + destruct (batch_completes W sheet_url credentials_path path s data Hopen Htext)
        as (Hr & _).
      destruct (process_google_sheet W sheet_url credentials_path path s) as [r s'].
      cbn [fst] in *. subst r. destruct (excel_writable W path); reflexivity.
    + destruct (batch_aborts W sheet_url credentials_path path s data Hopen Htext)
        as (Hr & _).
      destruct (process_google_sheet W sheet_url credentials_path path s) as [r s'].
      cbn [fst] in *. subst r. reflexivity.
  - rewrite process_google_sheet_run, Hopen. split; [reflexivity|]. reflexivity.
Qed.

Lemma page_message_witness :
  snd (on_process_sheet (L := exact_lib) (fair_world hello_sheet) EmptyString
         "results.xlsx" (start ∅)) = start ∅.
Proof.
  apply (proj2 (page_message (L := exact_lib) (fair_world hello_sheet) EmptyString
                  "results.xlsx" (start ∅))).
  left. reflexivity.
Defined.

(** * One row *)



(** * A row that goes well *)

Lemma staging_ne (i m n : nat) (a b : string) :
  staging_paths i !! m = Some a → staging_paths i !! n = Some b → m ≠ n → a ≠ b.
Proof.
  intros Ha Hb Hmn ->. apply Hmn.
  exact (NoDup_lookup _ _ _ _ (staging_paths_nodup i) Ha Hb).
Qed.

Lemma loaded_add_events (evs : list event) (s : State) (p : string) :
  loaded (add_events evs s) p = loaded s p.
Proof. reflexivity. Qed.



Ltac other_name m n := exact (staging_ne _ m n _ _ eq_refl eq_refl ltac:(lia)).



(** * Trimming *)

Lemma append_cons (c : ascii) (s t : string) : String c s +:+ t = String c (s +:+ t).
Proof. reflexivity. Qed.

Lemma append_empty_r (s : string) : s +:+ EmptyString = s.
Proof.
  induction s as [|c s IH]; [reflexivity|]. rewrite append_cons, IH. reflexivity.
Qed.

Lemma blank_app (s t : string) : blank (s +:+ t) = blank s && blank t.
Proof. unfold blank. rewrite list_ascii_app. apply forallb_app. Qed.











(** * Rounding of the score *)





(** * The order of a capture *)

(** X5: a capture issues its commands in one order: start, load, a pause of
    two seconds, hide the scrollbar, measure, resize to the measured
    height, take the picture, report. It does all of them; or only the
    start, when the start fails; or those up to the step that fails,
    between the load and the picture, followed by the error message and the
    quit. *)
Theorem capture_steps_in_order (W : World) (html_file output_file : string)
  (vp : Viewport) (s : State) :
  let evs := emitted s (snd (capture_screenshot_from_file W html_file output_file
                               vp s)) in
  let script := capture_script html_file output_file vp
                  (default 0 (measured (chrome W html_file vp))) in
  evs = script
  ∨ evs = take 1 script
  ∨ ∃ k, 2 ≤ k ≤ 7
         ∧ evs = take k script ++ [EPrint (ErrorCapturing WebDriverException); EQuit].
Proof.
  cbv zeta. rewrite capture_run. cbv zeta.
  destruct (chrome W html_file vp) as [| | | |h|h|h shot]; cbn [snd measured default];
    rewrite ?emitted_add_events, ?emitted_add_file_events.
  - right. left. reflexivity.
  - right. right. exists 2. split; [lia | reflexivity].
  - right. right. exists 4. split; [lia | reflexivity].
  - right. right. exists 5. split; [lia | reflexivity].
  - right. right. exists 6. split; [lia | reflexivity].
  - right. right. exists 7. split; [lia | reflexivity].
  - left. reflexivity.
Qed.

(** * The table prepared and the table written *)

(** X15: preparing the table keeps its columns in their order and appends
    whichever of the two match columns is missing, the desktop one first;
    both are present afterwards, the rows are as many, and preparing a
    prepared table changes nothing. *)
Theorem prepared_columns (data : DataFrame) :
  columns (prepared data)
  = columns data ++ filter (λ col, col ∉ columns data) [desktop_col; mobile_col]
  ∧ desktop_col ∈ columns (prepared data)
  ∧ mobile_col ∈ columns (prepared data)
  ∧ length (rows (prepared data)) = length (rows data)
  ∧ prepared (prepared data) = prepared data.
Proof.
  assert (columns (prepared data)
          = columns data ++ filter (λ col, col ∉ columns data) [desktop_col; mobile_col])
    as Hcols.
  { unfold prepared, ensure_column.
    destruct (decide (desktop_col ∈ columns data)) as [Hd|Hd];
      destruct (decide (mobile_col ∈ columns data)) as [Hm|Hm];
      rewrite ?(bool_decide_eq_true_2 _ Hd), ?(bool_decide_eq_false_2 _ Hd);
      cbn [columns].
    - rewrite (bool_decide_eq_true_2 _ Hm).
      rewrite filter_cons_False, filter_cons_False, filter_nil, app_nil_r by auto.
      reflexivity.
    - rewrite (bool_decide_eq_false_2 _ Hm). cbn [columns].
      rewrite filter_cons_False, filter_cons_True, filter_nil by auto.
      reflexivity.
    - rewrite bool_decide_eq_true_2 by (apply elem_of_app; left; exact Hm).
      cbn [columns].
      rewrite filter_cons_True, filter_cons_False, filter_nil by auto.
      reflexivity.
    - rewrite bool_decide_eq_false_2.
      + cbn [columns].
        rewrite filter_cons_True, filter_cons_True, filter_nil, <- app_assoc by auto.
        reflexivity.
      + intros Hin. apply elem_of_app in Hin as [Hin|Hin]; [exact (Hm Hin)|].
        apply list_elem_of_singleton in Hin. discriminate Hin. }
  assert (desktop_col ∈ columns (prepared data)) as Hd.
  { rewrite Hcols. destruct (decide (desktop_col ∈ columns data)) as [H|H].
    - apply elem_of_app. left. exact H.
    - apply elem_of_app. right. rewrite filter_cons_True by exact H.
      apply list_elem_of_here. }
  assert (mobile_col ∈ columns (prepared data)) as Hm.
  { rewrite Hcols. destruct (decide (mobile_col ∈ columns data)) as [H|H].
    - apply elem_of_app. left. exact H.
    - apply elem_of_app. right. apply list_elem_of_filter. split; [exact H|].
      apply list_elem_of_further, list_elem_of_here. }
  split; [exact Hcols|]. split; [exact Hd|]. split; [exact Hm|].
  split; [apply prepared_length|]. apply prepared_present; assumption.
Qed.

Lemma sheet_payload_cell (d : DataFrame) (j k : nat) (col : string)
  (r : gmap string cell) :
  columns d !! k = Some col → rows d !! j = Some r →
  values_tolist d !! j ≫= (λ cells, cells !! k) = Some (default CNone (r !! col)).
Proof.
  intros Hk Hj. unfold values_tolist. rewrite list_lookup_fmap, Hj. cbn.
  rewrite list_lookup_fmap, Hk. reflexivity.
Qed.

(** X16: on a table whose input cells are all text, what is written back and
    what is exported is one table: a header with the columns of the
    prepared table, then one line for each row read, each as long as the
    header; a line holds the cells of its row in the order of the header,
    with [None] where the row has no value. *)
Theorem payload_shape {L : ImageLib} (W : World)
  (sheet_url credentials path : string) (s : State) (data : DataFrame) :
  open_sheet W sheet_url credentials = Ret data →
  forallb text_row (rows data) = true →
  ∃ body : list (list cell),
    let header : list cell := CStr <$> columns (prepared data) in
    let s' := snd (process_google_sheet W sheet_url credentials path s) in
    ESheetUpdate (header :: body) ∈ trace s'
    ∧ EToExcel path (header :: body) ∈ trace s'
    ∧ length body = length (rows data)
    ∧ Forall (λ line, length line = length header) body
    ∧ ∀ j k col r,
        columns (prepared data) !! k = Some col →
        rows (df s') !! j = Some r →
        body !! j ≫= (λ line, line !! k) = Some (default CNone (r !! col)).
Proof.
  intros Hopen Htext.
  destruct (run_on_text_rows W sheet_url credentials path s data Hopen Htext)
    as (s1 & Hb & ->).
  pose proof (batch_length _ _ _ Hb) as Hlen.
  destruct Hb as (_ & Hcols & _). cbn [with_table df] in Hcols, Hlen.
  rewrite prepared_length in Hlen.
  exists (values_tolist (df s1)). cbv zeta. cbn [snd add_events trace df].
  rewrite <- Hcols.
  change ((CStr <$> columns (df s1)) :: values_tolist (df s1))
    with (sheet_payload (df s1)).
  split.
  { apply elem_of_app. right. unfold sink_events. cbv zeta.
    apply elem_of_app. left. apply list_elem_of_here. }
  split.
  { apply elem_of_app. right. unfold sink_events. cbv zeta.
    apply elem_of_app. left. do 2 apply list_elem_of_further. apply list_elem_of_here. }
  split; [unfold values_tolist; rewrite length_fmap; exact Hlen|].
  split.
  { unfold values_tolist. apply Forall_fmap, Forall_true. intros r. cbn.
    rewrite !length_fmap. reflexivity. }
  intros j k col r. apply sheet_payload_cell.
Qed.

Lemma payload_shape_witness :
  ∃ body : list (list cell),
    ESheetUpdate ((CStr <$> columns (prepared hello_sheet)) :: body)
    ∈ trace (snd (run (fair_world hello_sheet)))
    ∧ length body = 1.
Proof.
  destruct (payload_shape (L := exact_lib) (fair_world hello_sheet) "sheet" "key.json"
              "results.xlsx" (start ∅) hello_sheet eq_refl eq_refl)
    as (body & H1 & _ & H3 & _).
  exists body. split; [exact H1 | exact H3].
Defined.

(** * A picture left by an earlier run *)




(** * Rows whose references or pictures are unfit *)

Lemma loaded_lookup (s : State) (p : string) (c : file) :
  fs s !! p = Some c → loaded s p = decoded c.
Proof. intros H. unfold loaded. rewrite H. destruct c; reflexivity. Qed.

(** A row whose cells are there, whose references are served and whose
    pictures are taken reaches the comparisons with the four files in
    place. *)
Lemma staged_row {L : ImageLib} (W : World) (index : nat) (row : gmap string cell)
  (s : State) (html css durl murl : string) (cd cm sd sm : file) (hd hm : nat) :
  cell_strip (row_get row "HTML Code") = Ret html →
  cell_strip (row_get row "CSS Code") = Ret css →
  cell_strip (row_get row "Desktop Reference Image") = Ret durl →
  cell_strip (row_get row "Mobile Reference Image") = Ret murl →
  (is_empty html || is_empty css) || (is_empty durl || is_empty murl) = false →
  requests_get W durl = Response 200 cd →
  requests_get W murl = Response 200 cm →
  chrome W (page_path index) desktop_viewport = Captured hd sd →
  chrome W (page_path index) mobile_viewport = Captured hm sm →
  ∃ s4 evs,
    process_row W index row s
    = try_except (score_row index) (λ e, print (ErrorProcessingRow index e)) s4
    ∧ df s4 = df s
    ∧ trace s4 = trace s ++ evs ∧ failures evs = []
    ∧ loaded s4 (desktop_ref_path index) = decoded cd
    ∧ loaded s4 (mobile_ref_path index) = decoded cm
    ∧ loaded s4 (desktop_screenshot_path index) = decoded sd
    ∧ loaded s4 (mobile_screenshot_path index) = decoded sm.
Proof.
  intros E1 E2 E3 E4 V Gd Gm Cd Cm.
  apply orb_false_elim in V as [V1 V2].
  unfold process_row. munfold. rewrite E1, E2, E3, E4, V1, V2.
  rewrite save_code_to_file_run. cbv beta iota zeta.
  change (path_join TEMP_DIR ("page_" +:+ str_of_index index +:+ ".html"))
    with (page_path index).
  change (path_join TEMP_DIR ("style_" +:+ str_of_index index +:+ ".css"))
    with (style_path index).
  rewrite download_image_run, Gd. cbn [Nat.eqb negb]. cbv beta iota.
  rewrite download_image_run, Gm. cbn [Nat.eqb negb]. cbv beta iota.
  rewrite capture_run, Cd. cbv beta iota zeta. cbn [app].
  rewrite capture_run, Cm. cbv beta iota zeta. cbn [app].
  eexists _, _. split; [unfold try_except, score_row; munfold; reflexivity|].
  split; [reflexivity|].
  split; [cbn [trace add_events add_file]; rewrite <- !app_assoc; reflexivity|].
  split; [reflexivity|].
  split; [|split; [|split]]; apply loaded_lookup; cbn [fs add_events add_file].
  - rewrite lookup_insert_ne by other_name 3 4.
    rewrite lookup_insert_ne by other_name 2 4.
    rewrite lookup_insert_ne by other_name 5 4.
    apply lookup_insert_eq.
  - rewrite lookup_insert_ne by other_name 3 5.
    rewrite lookup_insert_ne by other_name 2 5.
    apply lookup_insert_eq.
  - rewrite lookup_insert_ne by other_name 3 2.
    apply lookup_insert_eq.
  - apply lookup_insert_eq.
Qed.

Lemma emitted_trace (s s' : State) (evs : list event) :
  trace s' = trace s ++ evs → emitted s s' = evs.
Proof. apply emitted_app. Qed.

(** X18: a reference with a side shorter than the 7-pixel window of
    [structural_similarity] fails its row. With the mobile reference too
    small and everything else in order, the desktop score is computed and
    printed, the comparison of the mobile pair raises [ValueError], the row
    ends with the message about that error, and neither score is
    written. *)
Theorem small_reference_fails_row {L : ImageLib} (HL : ImageLibOk L) (W : World)
  (index : nat) (row : gmap string cell) (s : State)
  (html css durl murl : string) (rd rm td tm : image) (hd hm : nat) :
  cell_strip (row_get row "HTML Code") = Ret html →
  cell_strip (row_get row "CSS Code") = Ret css →
  cell_strip (row_get row "Desktop Reference Image") = Ret durl →
  cell_strip (row_get row "Mobile Reference Image") = Ret murl →
  (is_empty html || is_empty css) || (is_empty durl || is_empty murl) = false →
  requests_get W durl = Response 200 (FImage rd) →
  requests_get W murl = Response 200 (FImage rm) →
  chrome W (page_path index) desktop_viewport = Captured hd (FImage td) →
  chrome W (page_path index) mobile_viewport = Captured hm (FImage tm) →
  decodes rd = true → decodes rm = true → decodes td = true → decodes tm = true →
  (7 ≤ img_rows rd)%nat → (7 ≤ img_cols rd)%nat →
  (img_rows rm < 7 ∨ img_cols rm < 7)%nat →
  ∃ vd,
    sk_ssim (cv_cvtColor rd)
      (cv_cvtColor (cv_resize td (img_cols rd) (img_rows rd))) = Ret vd
    ∧ fst (process_row W index row s) = Ret tt
    ∧ df (snd (process_row W index row s)) = df s
    ∧ failures (emitted s (snd (process_row W index row s))) = [index]
    ∧ EPrint (MatchPercentage (round2 (vd * 100)) (desktop_ref_path index)
                (desktop_screenshot_path index))
      ∈ emitted s (snd (process_row W index row s))
    ∧ last (emitted s (snd (process_row W index row s)))
      = Some (EPrint (ErrorProcessingRow index ValueError)).
Proof.
  intros E1 E2 E3 E4 V Gd Gm Cd Cm Drd Drm Dtd Dtm Hrd Hcd Hsmall.
  destruct (decodes_grid rd Drd) as (Grd & Hrd0 & Hcd0).
  destruct (decodes_grid rm Drm) as (Grm & Hrm0 & Hcm0).
  destruct (ssim_range L HL (cv_cvtColor rd)
              (cv_cvtColor (cv_resize td (img_cols rd) (img_rows rd)))
              (img_rows rd) (img_cols rd)) as (vd & Svd & _); try assumption.
  { apply (cvtColor_grid L HL), Grd. }
  { apply (cvtColor_grid L HL), (resize_grid L HL); assumption. }
  assert (sk_ssim (cv_cvtColor rm)
            (cv_cvtColor (cv_resize tm (img_cols rm) (img_rows rm)))
          = Raise ValueError) as Svm.
  { apply (ssim_small L HL _ _ (img_rows rm) (img_cols rm)); [| |exact Hsmall].
    - apply (cvtColor_grid L HL), Grm.
    - apply (cvtColor_grid L HL), (resize_grid L HL); assumption. }
  destruct (staged_row W index row s html css durl murl _ _ _ _ hd hm
              E1 E2 E3 E4 V Gd Gm Cd Cm)
    as (s4 & evs & -> & Hdf & Ht & Hfl & Lrd & Lrm & Ltd & Ltm).
  cbn [decoded] in Lrd, Lrm, Ltd, Ltm. rewrite Drd in Lrd. rewrite Drm in Lrm.
  rewrite Dtd in Ltd. rewrite Dtm in Ltm.
  exists vd. split; [exact Svd|].
  unfold try_except, score_row. munfold.
  rewrite pixel_match_run, Lrd, Ltd, Svd. cbv beta iota.
  rewrite pixel_match_run, !loaded_add_events, Lrm, Ltm, Svm. cbv beta iota.
  unfold print, emit. cbn [fst snd df add_events].
  split; [reflexivity|]. split; [exact Hdf|].
  rewrite (emitted_trace s _
             (evs ++ [EPrint (MatchPercentage (round2 (vd * 100))
                                (desktop_ref_path index)
                                (desktop_screenshot_path index));
                      EPrint (ErrorProcessingRow index ValueError)]))
    by (cbn [trace add_events]; rewrite Ht, <- !app_assoc; reflexivity).
  split; [rewrite failures_app, Hfl; reflexivity|].
  split.
  - apply elem_of_app. right. apply list_elem_of_here.
  - rewrite last_app. reflexivity.
Qed.

Lemma small_reference_fails_row_witness :
  df (snd (process_row (L := exact_lib)
             (with_http (λ url, if String.eqb url "http://refs/mobile.png"
                                then Response 200 (FImage (solid 5 5 200))
                                else Response 200 (FImage (checker 8 8 false)))
                        (fair_world hello_sheet))
             0 hello_row (start ∅)))
  = df (start ∅).
Proof.
  destruct (small_reference_fails_row exact_lib_ok
              (with_http (λ url, if String.eqb url "http://refs/mobile.png"
                                 then Response 200 (FImage (solid 5 5 200))
                                 else Response 200 (FImage (checker 8 8 false)))
                         (fair_world hello_sheet))
              0 hello_row (start ∅)
              "<div>Hello</div>" "div{color:red}" "http://refs/desktop.png"
              "http://refs/mobile.png" (checker 8 8 false) (solid 5 5 200)
              (checker 8 8 false) (checker 8 8 false) 1500 1500)
    as (vd & _ & _ & Hdf & _);
    [first [reflexivity | cbn; lia] .. | exact Hdf].
Defined.


